(** * Visual analytics for property data

    A shallow embedding of [src/process/analytics_generator.py] (class
    [AnalyticsGenerator]) and the properties of its chart documents.

    How the Python program is modelled.

    - Values.  The generator receives loosely typed, JSON-like data; [Py.value]
      has [None], integers, floats, strings, lists and dictionaries (an
      association list in insertion order, string keys).  Booleans, tuples and
      user classes are not modelled.
    - Exceptions.  Every operation that can raise in Python returns a
      [Py.result]: [Ok v] or [Raise e], with the exception classes the
      generator can meet ([KeyError], [AttributeError], [TypeError],
      [ZeroDivisionError]).  Sequencing is the bind of that monad, so the first
      exception in Python's evaluation order is the one returned.
    - Numbers.  Python integers are [Z].  Floats are idealised as exact
      rationals [Q]: rounding, overflow, infinities and NaN are not modelled.
      The integer/float distinction is kept because it decides how a number is
      printed.
    - Runtime.  [math.cos], [math.sin] and the three ways a float is printed
      ([str], the [,] format and the [.0f] format) belong to the Python
      runtime and the C library; they are the fields of the class [Runtime]
      and every theorem holds for every runtime.
    - Documents.  A chart is the character string the Python code builds.  The
      text of the templates is written line by line; inside these literals the
      double-quote character of the SVG text is written as an apostrophe and
      [lit] turns it back (no template contains an apostrophe).

    The file has the embedding first (Python values, text, the generator,
    one sample runtime, the vocabulary of the specification), then the
    theorems: score classification, gauge, trend indicator, radar chart,
    valuation chart, price comparison, numbers outside their domain, and
    the orchestrator. *)

From Stdlib Require Import ZArith QArith Qabs Qround Qminmax String Ascii List Bool.
From Stdlib Require Import Lia Lqa DecimalString Permutation.
Import ListNotations.

Local Open Scope string_scope.
Local Open Scope Z_scope.

(** ** Python values, exceptions and the operations the generator uses *)

Module Py.

Inductive exn : Type :=
| KeyError
| AttributeError
| TypeError
| ZeroDivisionError.

Inductive result (A : Type) : Type :=
| Ok (a : A)
| Raise (e : exn).

Arguments Ok {A} a.
Arguments Raise {A} e.

Definition bind {A B : Type} (m : result A) (k : A -> result B) : result B :=
  match m with
  | Ok a => k a
  | Raise e => Raise e
  end.

Fixpoint mapM {A B : Type} (f : A -> result B) (l : list A) : result (list B) :=
  match l with
  | [] => Ok []
  | x :: xs =>
      bind (f x) (fun y => bind (mapM f xs) (fun ys => Ok (y :: ys)))
  end.

#[local] Set Warnings "-register-all".

Inductive value : Type :=
| PNone
| PInt (z : Z)
| PFloat (q : Q)
| PStr (s : string)
| PList (l : list value)
| PDict (d : list (string * value)).

Definition dict : Type := list (string * value).

(** Numbers: what [int] and [float] values have in common. *)
Inductive num : Type :=
| NInt (z : Z)
| NFloat (q : Q).

Definition of_num (n : num) : value :=
  match n with
  | NInt z => PInt z
  | NFloat q => PFloat q
  end.

Definition as_num (v : value) : option num :=
  match v with
  | PInt z => Some (NInt z)
  | PFloat q => Some (NFloat q)
  | _ => None
  end.

(** A numeric operand, or the [TypeError] of an arithmetic operator or an
    ordering comparison applied to anything else. *)
Definition number (v : value) : result num :=
  match as_num v with
  | Some n => Ok n
  | None => Raise TypeError
  end.

(** [float(n)] *)
Definition to_float (n : num) : Q :=
  match n with
  | NInt z => inject_Z z
  | NFloat q => q
  end.

Definition is_zero (n : num) : bool :=
  match n with
  | NInt z => z =? 0
  | NFloat q => Qeq_bool q 0
  end.

(** [a / b]: true division, always a float. *)
Definition truediv (a b : num) : result Q :=
  if is_zero b then Raise ZeroDivisionError
  else Ok (to_float a / to_float b)%Q.

(** [a + b] *)
Definition add (a b : num) : num :=
  match a, b with
  | NInt x, NInt y => NInt (x + y)
  | _, _ => NFloat (to_float a + to_float b)%Q
  end.

(** [a > b] *)
Definition gt (a b : num) : bool :=
  match a, b with
  | NInt x, NInt y => y <? x
  | _, _ => negb (Qle_bool (to_float a) (to_float b))
  end.

(** [a >= k] for an integer literal [k] *)
Definition ge_int (a : num) (k : Z) : bool :=
  match a with
  | NInt x => k <=? x
  | NFloat q => Qle_bool (inject_Z k) q
  end.

(** [int(x)] of a float: truncation toward zero. *)
Definition trunc (q : Q) : Z :=
  if Qle_bool 0 q then Qfloor q else Qceiling q.

(** [sum(l)]: starts from the integer 0. *)
Definition sum (l : list num) : num := fold_left add l (NInt 0).

(** [max(l)] on numbers: the first of the greatest elements. *)
Definition max_num (first : num) (rest : list num) : num :=
  fold_left (fun m x => if gt x m then x else m) rest first.

(** [max(l)] for a list of values.  The generator only calls it on a list of
    at least two elements and uses the result as a factor and as a divisor.
    On strings or lists Python's [max] can succeed, and the product with a
    float on the next line raises [TypeError]; no effect lies between the two,
    so the model raises [TypeError] here for every operand that is not a
    number. *)
Definition max (l : list value) : result num :=
  bind (mapM number l) (fun ns =>
  match ns with
  | [] => Raise TypeError
  | n :: rest => Ok (max_num n rest)
  end).

(** Truth value of an object: [bool(v)]. *)
Definition truthy (v : value) : bool :=
  match v with
  | PNone => false
  | PInt z => negb (z =? 0)
  | PFloat q => negb (Qeq_bool q 0)
  | PStr EmptyString => false
  | PStr _ => true
  | PList [] => false
  | PList _ => true
  | PDict [] => false
  | PDict _ => true
  end.

(** [v == 0] *)
Definition eq_zero (v : value) : bool :=
  match as_num v with
  | Some n => is_zero n
  | None => false
  end.

(** [v == s] for a string literal [s] *)
Definition eq_str (v : value) (s : string) : bool :=
  match v with
  | PStr t => String.eqb t s
  | _ => false
  end.

Fixpoint lookup (k : string) (d : dict) : option value :=
  match d with
  | [] => None
  | (k', v) :: rest => if String.eqb k' k then Some v else lookup k rest
  end.

(** [v.get(key, default)]: only dictionaries have the method. *)
Definition get (v : value) (key : string) (default : value) : result value :=
  match v with
  | PDict d =>
      match lookup key d with
      | Some x => Ok x
      | None => Ok default
      end
  | _ => Raise AttributeError
  end.

(** [v[key]] for a string key. *)
Definition getitem (v : value) (key : string) : result value :=
  match v with
  | PDict d =>
      match lookup key d with
      | Some x => Ok x
      | None => Raise KeyError
      end
  | _ => Raise TypeError
  end.

Fixpoint substring_of (p s : string) : bool :=
  String.prefix p s
  || match s with
     | EmptyString => false
     | String _ s' => substring_of p s'
     end.

(** [key in v] for a string key: a key of a dictionary, an element of a list,
    a substring of a string; other objects are not containers. *)
Definition contains (v : value) (key : string) : result bool :=
  match v with
  | PDict d =>
      Ok (match lookup key d with Some _ => true | None => false end)
  | PList l => Ok (existsb (fun x => eq_str x key) l)
  | PStr s => Ok (substring_of key s)
  | _ => Raise TypeError
  end.

Fixpoint chars (s : string) : list value :=
  match s with
  | EmptyString => []
  | String c s' => PStr (String c EmptyString) :: chars s'
  end.

(** The elements [for x in v] runs over. *)
Definition iter (v : value) : result (list value) :=
  match v with
  | PList l => Ok l
  | PDict d => Ok (List.map (fun kv => PStr (fst kv)) d)
  | PStr s => Ok (chars s)
  | _ => Raise TypeError
  end.

(** [enumerate(l)] *)
Fixpoint enumerate_from {A : Type} (i : Z) (l : list A) : list (Z * A) :=
  match l with
  | [] => []
  | x :: xs => (i, x) :: enumerate_from (i + 1) xs
  end.

Definition enumerate {A : Type} (l : list A) : list (Z * A) :=
  enumerate_from 0 l.

(** Whether [hash(v)] is defined: lists and dictionaries are unhashable. *)
Definition hashable (v : value) : bool :=
  match v with
  | PList _ | PDict _ => false
  | _ => true
  end.

End Py.

Import Py.

Declare Scope py_scope.
Delimit Scope py_scope with py.
Notation "x <- m ;; k" := (bind m (fun x => k))
  (at level 61, m at next level, right associativity) : py_scope.
Local Open Scope py_scope.

(** ** Text *)

Definition nl : string := String (ascii_of_nat 10) EmptyString.

Fixpoint join (sep : string) (l : list string) : string :=
  match l with
  | [] => EmptyString
  | [s] => s
  | s :: rest => s ++ sep ++ join sep rest
  end.

Definition unlines (l : list string) : string := join nl l.

Fixpoint map_chars (f : ascii -> ascii) (s : string) : string :=
  match s with
  | EmptyString => EmptyString
  | String c s' => String (f c) (map_chars f s')
  end.

(** Template text: an apostrophe in the literal stands for the double quote
    of the Python source. *)
Definition lit (s : string) : string :=
  map_chars (fun c => if Ascii.eqb c "'" then ascii_of_nat 34 else c) s.

(** [str(z)] for an integer. *)
Definition str_int (z : Z) : string := NilZero.string_of_int (Z.to_int z).

(** Digits from the least significant one, a comma after every third that
    has a digit after it. *)
Fixpoint group3 (digits : list ascii) : list ascii :=
  match digits with
  | a :: b :: c :: ((_ :: _) as rest) => a :: b :: c :: ","%char :: group3 rest
  | _ => digits
  end.

(** [f"{z:,}"] for an integer. *)
Definition comma_int (z : Z) : string :=
  let digits := list_ascii_of_string (str_int (Z.abs z)) in
  let grouped := string_of_list_ascii (rev (group3 (rev digits))) in
  if z <? 0 then "-" ++ grouped else grouped.

(** The parts of the Python runtime the generator relies on and this
    development leaves abstract. *)
Class Runtime : Type := {
  (** [math.cos], [math.sin] *)
  math_cos : Q -> Q;
  math_sin : Q -> Q;
  (** [str(x)] of a float, as in [f"{x}"] *)
  float_str : Q -> string;
  (** [f"{x:,}"] of a float *)
  float_comma : Q -> string;
  (** [f"{x:.0f}"]; an integer argument is converted to a float first *)
  float_f0 : Q -> string
}.

(** [math.pi]: the double nearest to the real number. *)
Definition math_pi : Q := 884279719003555 # 281474976710656.

(** ** Layout constants

    The local variables each renderer starts with, one module per renderer. *)

Module Radar.

Definition categories : list string :=
  [ "Schools"; "Safety"; "Transport"; "Amenities"; "Investment"; "Environment" ].

(** [rating_map], in the insertion order its loop runs in. *)
Definition rating_map : list (string * Z) :=
  [ ("school_quality", 0);
    ("safety", 1);
    ("transportation", 2);
    ("amenities", 3);
    ("investment_potential", 4);
    ("environment", 5) ].

Definition svg_width : Z := 400.
Definition svg_height : Z := 300.
Definition center_x : Z := svg_width / 2.
Definition center_y : Z := svg_height / 2.
Definition radius : Z := Z.min center_x center_y - 40.

End Radar.

Module Valuation.

Definition svg_width : Z := 500.
Definition svg_height : Z := 300.
Definition bar_width : Z := 40.
Definition padding : Z := 60.

End Valuation.

(** ** The chart generator *)

Section AnalyticsGenerator.

Context {RT : Runtime}.

(** [f"{n}"] *)
Definition str_num (n : num) : string :=
  match n with
  | NInt z => str_int z
  | NFloat q => float_str q
  end.

(** [f"{n:,}"] *)
Definition comma_num (n : num) : string :=
  match n with
  | NInt z => comma_int z
  | NFloat q => float_comma q
  end.

(** [f"{n:.0f}"] *)
Definition f0_num (n : num) : string := float_f0 (to_float n).

(** [str(v)] of a hashable value; [None] for a list or a dictionary, whose
    text the generator never needs (it hashes the value first). *)
Definition str_key (v : value) : option string :=
  match v with
  | PNone => Some "None"
  | PInt z => Some (str_int z)
  | PFloat q => Some (float_str q)
  | PStr s => Some s
  | PList _ | PDict _ => None
  end.

(** *** Placeholder documents *)

Definition default_radar_chart : string :=
  unlines
    [ lit "<svg width='400' height='300' xmlns='http://www.w3.org/2000/svg'>";
      lit "            <rect width='400' height='300' fill='#f7fafc' rx='8'/>";
      lit "            <text x='200' y='150' text-anchor='middle' fill='#a0aec0' font-family='sans-serif'>";
      lit "                Rating data not available";
      lit "            </text>";
      lit "        </svg>" ].

Definition default_bar_chart : string :=
  unlines
    [ lit "<svg width='500' height='300' xmlns='http://www.w3.org/2000/svg'>";
      lit "            <rect width='500' height='300' fill='#f7fafc' rx='8'/>";
      lit "            <text x='250' y='150' text-anchor='middle' fill='#a0aec0' font-family='sans-serif'>";
      lit "                Comparable sales data not available";
      lit "            </text>";
      lit "        </svg>" ].

Definition default_comparison_chart : string :=
  unlines
    [ lit "<svg width='400' height='200' xmlns='http://www.w3.org/2000/svg'>";
      lit "            <rect width='400' height='200' fill='#f7fafc' rx='8'/>";
      lit "            <text x='200' y='100' text-anchor='middle' fill='#a0aec0' font-family='sans-serif'>";
      lit "                Price comparison data not available";
      lit "            </text>";
      lit "        </svg>" ].

(** *** Score classification *)

(** [score >= k]: ordering a non-number against an integer raises. *)
Definition ge (score : value) (k : Z) : result bool :=
  n <- number score ;; Ok (ge_int n k).

Definition score_to_color (score : value) : result string :=
  c90 <- ge score 90 ;;
  if c90 then Ok "#10B981" else
  c80 <- ge score 80 ;;
  if c80 then Ok "#34D399" else
  c70 <- ge score 70 ;;
  if c70 then Ok "#FBBF24" else
  c60 <- ge score 60 ;;
  if c60 then Ok "#F59E0B" else
  Ok "#EF4444".

Definition score_to_label (score : value) : result string :=
  c90 <- ge score 90 ;;
  if c90 then Ok "Excellent" else
  c80 <- ge score 80 ;;
  if c80 then Ok "Very Good" else
  c70 <- ge score 70 ;;
  if c70 then Ok "Good" else
  c60 <- ge score 60 ;;
  if c60 then Ok "Fair" else
  Ok "Needs Attention".

(** *** Investment gauge *)

(** [score * 2.51]: the visible length of the foreground arc's dash. *)
Definition gauge_dash (score : num) : Q := (to_float score * 2.51)%Q.

(** The lines of the gauge template with its holes: colour, dash length,
    score, label. *)
Definition gauge_lines (color dash score label : string) : list string :=
    [ lit "<svg width='200' height='120' xmlns='http://www.w3.org/2000/svg'>";
      lit "            <style>";
      lit "                .gauge-back { fill: #e2e8f0; }";
      lit "                .gauge-fill { fill: " ++ color ++ lit "; }";
      lit "                .gauge-text { font-size: 24px; fill: #2d3748; font-family: sans-serif; font-weight: bold; }";
      lit "                .gauge-label { font-size: 12px; fill: #718096; font-family: sans-serif; }";
      lit "            </style>";
      lit "            ";
      lit "            <!-- Gauge background -->";
      lit "            <path d='M20,100 A80,80 0 0,1 180,100' fill='none' stroke='#e2e8f0' stroke-width='20'/>";
      lit "            ";
      lit "            <!-- Gauge fill based on score -->";
      lit "            <path d='M20,100 A80,80 0 0,1 180,100' fill='none' stroke='" ++ color ++ lit "' stroke-width='20' ";
      lit "                  stroke-dasharray='" ++ dash ++ lit ", 251' stroke-linecap='round'/>";
      lit "            ";
      lit "            <!-- Score text -->";
      lit "            <text x='100' y='85' text-anchor='middle' class='gauge-text'>" ++ score ++ lit "</text>";
      lit "            <text x='100' y='105' text-anchor='middle' class='gauge-label'>" ++ label ++ lit "</text>";
      lit "            ";
      lit "            <!-- Labels -->";
      lit "            <text x='30' y='115' text-anchor='middle' class='gauge-label' font-size='10'>0</text>";
      lit "            <text x='170' y='115' text-anchor='middle' class='gauge-label' font-size='10'>100</text>";
      lit "        </svg>" ].

Definition gauge_document (color dash score label : string) : string :=
  unlines (gauge_lines color dash score label).

Definition generate_investment_gauge (score : value) : result string :=
  color <- score_to_color score ;;
  label <- score_to_label score ;;
  n <- number score ;;
  Ok (gauge_document color (float_str (gauge_dash n)) (str_num n) label).

(** *** Market trend indicator *)

Definition trend_colors : list (string * string) :=
  [ ("Rising", "#48bb78");
    ("Stable", "#fbbf24");
    ("Declining", "#f56565");
    ("Volatile", "#9f7aea") ].

Fixpoint assoc (k : string) (l : list (string * string)) : option string :=
  match l with
  | [] => None
  | (k', v) :: rest => if String.eqb k' k then Some v else assoc k rest
  end.

(** [trend_colors.get(trend, default)] for a hashable [trend]: only a string
    can equal one of the keys. *)
Definition trend_color (trend : value) (default : string) : string :=
  match trend with
  | PStr s =>
      match assoc s trend_colors with
      | Some c => c
      | None => default
      end
  | _ => default
  end.

(** The conditional expression inside the path's [d] attribute. *)
Definition trend_icon (trend : value) : string :=
  if eq_str trend "Rising" then "M60,65 L75,50 L90,65"
  else if eq_str trend "Stable" then "M60,60 L75,60 L90,60"
  else if eq_str trend "Declining" then "M60,50 L75,65 L90,50"
  else "M60,55 L68,65 L75,45 L82,65 L90,55".

(** The lines of the trend template with its holes: colour, the trend's
    text, icon path. *)
Definition trend_lines (color text icon : string) : list string :=
    [ lit "<svg width='150' height='80' xmlns='http://www.w3.org/2000/svg'>";
      lit "            <style>";
      lit "                .trend-icon { fill: " ++ color ++ lit "; }";
      lit "                .trend-text { font-size: 14px; fill: #4a5568; font-family: sans-serif; font-weight: bold; }";
      lit "                .trend-label { font-size: 11px; fill: #718096; font-family: sans-serif; }";
      lit "            </style>";
      lit "            ";
      lit "            <rect x='10' y='30' width='130' height='40' rx='8' fill='#f7fafc' stroke='#e2e8f0' stroke-width='1'/>";
      lit "            ";
      lit "            <text x='75' y='25' text-anchor='middle' class='trend-label'>Market Trend</text>";
      lit "            <text x='75' y='55' text-anchor='middle' class='trend-text'>" ++ text ++ lit "</text>";
      lit "            ";
      lit "            <!-- Trend icon -->";
      lit "            <path class='trend-icon' d='" ++ icon ++ lit "' stroke='" ++ color ++ lit "' stroke-width='3' fill='none'/>";
      lit "        </svg>" ].

Definition trend_document (color text icon : string) : string :=
  unlines (trend_lines color text icon).

(** Looking [trend] up in [trend_colors] hashes it: a list or a dictionary
    raises [TypeError] there, before any text is produced. *)
Definition generate_market_trend (trend : value) : result string :=
  match str_key trend with
  | None => Raise TypeError
  | Some text =>
      Ok (trend_document (trend_color trend "#a0aec0") text (trend_icon trend))
  end.

(** *** Ratings radar chart *)

Section RadarChart.

Import Radar.

(** One round of the loop over [rating_map]: the score of a category. *)
Definition rating_score (ratings : value) (key : string) : result value :=
  present <- contains ratings key ;;
  if present then
    entry <- getitem ratings key ;;
    get entry "score" (PInt 75)
  else Ok (PInt 75).

(** [(2 * math.pi * i / n) - math.pi / 2] *)
Definition axis_angle (i n : Z) : Q :=
  (2 * math_pi * inject_Z i / inject_Z n - math_pi / 2)%Q.

(** The point at distance [r] from the centre of the canvas in direction
    [angle]. *)
Definition polar (r angle : Q) : Q * Q :=
  (inject_Z center_x + r * math_cos angle,
   inject_Z center_y + r * math_sin angle)%Q.

Definition radar_header : string :=
  unlines
    [ lit "<svg width='" ++ str_int svg_width ++ lit "' height='" ++ str_int svg_height ++ lit "' xmlns='http://www.w3.org/2000/svg'>";
      lit "            <style>";
      lit "                .grid-line { stroke: #e2e8f0; stroke-width: 1; fill: none; }";
      lit "                .axis-line { stroke: #cbd5e0; stroke-width: 1; }";
      lit "                .data-line { stroke: #4299e1; stroke-width: 2; fill: rgba(66, 153, 225, 0.2); }";
      lit "                .data-point { fill: #4299e1; }";
      lit "                .category-label { font-size: 12px; fill: #4a5568; font-family: sans-serif; }";
      lit "                .score-label { font-size: 10px; fill: #718096; font-family: sans-serif; }";
      lit "            </style>";
      lit "            ";
      lit "            <!-- Background circles -->";
      lit "            <circle cx='" ++ str_int center_x ++ lit "' cy='" ++ str_int center_y ++ lit "' r='" ++ str_int radius ++ lit "' fill='none' stroke='#f7fafc' stroke-width='2'/>";
      lit "            <circle cx='" ++ str_int center_x ++ lit "' cy='" ++ str_int center_y ++ lit "' r='" ++ float_str (inject_Z radius * 0.75) ++ lit "' fill='none' stroke='#f7fafc' stroke-width='1'/>";
      lit "            <circle cx='" ++ str_int center_x ++ lit "' cy='" ++ str_int center_y ++ lit "' r='" ++ float_str (inject_Z radius * 0.5) ++ lit "' fill='none' stroke='#f7fafc' stroke-width='1'/>";
      lit "            <circle cx='" ++ str_int center_x ++ lit "' cy='" ++ str_int center_y ++ lit "' r='" ++ float_str (inject_Z radius * 0.25) ++ lit "' fill='none' stroke='#f7fafc' stroke-width='1'/>";
      lit "            ";
      lit "            <!-- Axes -->";
      lit "            <line x1='" ++ str_int center_x ++ lit "' y1='" ++ str_int (center_y - radius) ++ lit "' x2='" ++ str_int center_x ++ lit "' y2='" ++ str_int (center_y + radius) ++ lit "' class='axis-line'/>";
      lit "            <line x1='" ++ str_int (center_x - radius) ++ lit "' y1='" ++ str_int center_y ++ lit "' x2='" ++ str_int (center_x + radius) ++ lit "' y2='" ++ str_int center_y ++ lit "' class='axis-line'/>";
      lit "        " ].

(** One round of the loop over [categories]: the axis line and its label. *)
Definition category_axis (n : Z) (ic : Z * string) : string :=
  let '(i, category) := ic in
  let angle := axis_angle i n in
  let '(end_x, end_y) := polar (inject_Z radius) angle in
  let '(label_x, label_y) := polar (inject_Z (radius + 20)) angle in
  let text_anchor :=
    if negb (Qle_bool (Qabs (math_cos angle)) 0.7) then
      if negb (Qle_bool (math_cos angle) 0) then "start" else "end"
    else "middle" in
  lit "<line x1='" ++ str_int center_x ++ lit "' y1='" ++ str_int center_y ++ lit "' x2='" ++ float_str end_x ++ lit "' y2='" ++ float_str end_y ++ lit "' class='axis-line'/>"
  ++ lit "<text x='" ++ float_str label_x ++ lit "' y='" ++ float_str label_y ++ lit "' text-anchor='" ++ text_anchor ++ lit "' class='category-label'>" ++ category ++ lit "</text>".

(** [radius * (score / 100)] *)
Definition score_radius (score : num) : Q :=
  (inject_Z radius * (to_float score / 100))%Q.

(** The vertex of the data polygon for the [i]-th of [n] scores. *)
Definition data_point (n i : Z) (score : num) : Q * Q :=
  polar (score_radius score) (axis_angle i n).

(** The entry of [points] for a vertex: [f"{point_x},{point_y}"]. *)
Definition point_text (p : Q * Q) : string :=
  float_str (fst p) ++ "," ++ float_str (snd p).

(** The marker and the score label drawn in one round of the loop over
    [scores]. *)
Definition data_marker (n i : Z) (score : num) : string :=
  let angle := axis_angle i n in
  let '(point_x, point_y) := data_point n i score in
  let '(label_x, label_y) := polar (score_radius score + 15) angle in
  lit "<circle cx='" ++ float_str point_x ++ lit "' cy='" ++ float_str point_y ++ lit "' r='4' class='data-point'/>"
  ++ lit "<text x='" ++ float_str label_x ++ lit "' y='" ++ float_str label_y ++ lit "' text-anchor='middle' class='score-label'>" ++ str_num score ++ lit "</text>".

(** The scores collected by the first loop, in the order of [rating_map]. *)
Definition collect_scores (ratings : value) : result (list value) :=
  mapM (fun ki => rating_score ratings (fst ki)) rating_map.

(** One round of the loop over [scores]: the vertex appended to [points]
    and the text appended to the document.  [score / 100] raises [TypeError]
    when the score is not a number. *)
Definition data_round (n : Z) (iscore : Z * value)
  : result ((Q * Q) * string) :=
  let '(i, score) := iscore in
  s <- number score ;;
  Ok (data_point n i s, data_marker n i s).

Definition data_rounds (scores : list value)
  : result (list ((Q * Q) * string)) :=
  mapM (data_round (Z.of_nat (length scores))) (enumerate scores).

(** The vertices of the data polygon. *)
Definition polygon_points (scores : list value) : result (list (Q * Q)) :=
  rounds <- data_rounds scores ;; Ok (List.map fst rounds).

(** The text added by the loop over [categories]. *)
Definition radar_axes : string :=
  String.concat EmptyString
    (List.map (category_axis (Z.of_nat (length categories)))
              (enumerate categories)).

(** The polygon element: [" ".join(points)] inside its attribute. *)
Definition polygon_element (vertices : list (Q * Q)) : string :=
  lit "<polygon points='" ++ join " " (List.map point_text vertices) ++ lit "' class='data-line'/>".

(** The document once the scores are collected. *)
Definition radar_document (scores : list value) : result string :=
  rounds <- data_rounds scores ;;
  Ok (radar_header
      ++ radar_axes
      ++ String.concat EmptyString (List.map snd rounds)
      ++ polygon_element (List.map fst rounds)
      ++ "</svg>").

Definition generate_radar_chart (ratings : value) : result string :=
  if negb (truthy ratings) then Ok default_radar_chart
  else
    scores <- collect_scores ratings ;;
    radar_document scores.

End RadarChart.

(** *** Valuation bar chart *)

(** A bar of the chart: its left edge, its top edge and its height. *)
Record bar : Type := Bar { bar_x : Q; bar_y : Q; bar_height : Q }.

Section ValuationChart.

Import Valuation.

(** [[sale['price'] for sale in comparable_sales]] *)
Definition sale_prices (comparable_sales : value) : result (list value) :=
  sales <- iter comparable_sales ;;
  mapM (fun sale => getitem sale "price") sales.

Definition valuation_header : string :=
  unlines
    [ lit "<svg width='" ++ str_int svg_width ++ lit "' height='" ++ str_int svg_height ++ lit "' xmlns='http://www.w3.org/2000/svg'>";
      lit "            <style>";
      lit "                .bar { fill: #4299e1; }";
      lit "                .current-bar { fill: #48bb78; }";
      lit "                .axis { stroke: #cbd5e0; stroke-width: 1; }";
      lit "                .label { font-size: 12px; fill: #4a5568; font-family: sans-serif; }";
      lit "                .price-label { font-size: 10px; fill: #718096; font-family: sans-serif; }";
      lit "                .grid-line { stroke: #e2e8f0; stroke-width: 0.5; stroke-dasharray: 2,2; }";
      lit "            </style>";
      lit "            ";
      lit "            <!-- Grid lines -->";
      lit "            <line x1='" ++ str_int padding ++ lit "' y1='50' x2='" ++ str_int (svg_width - padding) ++ lit "' y2='50' class='grid-line'/>";
      lit "            <line x1='" ++ str_int padding ++ lit "' y1='100' x2='" ++ str_int (svg_width - padding) ++ lit "' y2='100' class='grid-line'/>";
      lit "            <line x1='" ++ str_int padding ++ lit "' y1='150' x2='" ++ str_int (svg_width - padding) ++ lit "' y2='150' class='grid-line'/>";
      lit "            <line x1='" ++ str_int padding ++ lit "' y1='200' x2='" ++ str_int (svg_width - padding) ++ lit "' y2='200' class='grid-line'/>";
      lit "            ";
      lit "            <!-- Axis -->";
      lit "            <line x1='" ++ str_int padding ++ lit "' y1='50' x2='" ++ str_int padding ++ lit "' y2='" ++ str_int (svg_height - 50) ++ lit "' class='axis'/>";
      lit "            <line x1='" ++ str_int padding ++ lit "' y1='" ++ str_int (svg_height - 50) ++ lit "' x2='" ++ str_int (svg_width - padding) ++ lit "' y2='" ++ str_int (svg_height - 50) ++ lit "' class='axis'/>";
      lit "        " ].

(** One round of the loop over [[0.25, 0.5, 0.75, 1.0]]. *)
Definition y_axis_label (max_price : num) (value : Q) : string :=
  let y := (inject_Z (svg_height - 50) - 150 * value)%Q in
  let price := "$" ++ comma_int (trunc (to_float max_price * value)) in
  lit "<text x='" ++ str_int (padding - 10) ++ lit "' y='" ++ float_str (y + 3) ++ lit "' text-anchor='end' class='price-label'>" ++ price ++ lit "</text>".

(** [available_width / (len(comparable_sales) + 2)] *)
Definition bar_spacing (count : Z) : Q :=
  let chart_width := svg_width - 2 * padding in
  let available_width := chart_width - (count + 1) * bar_width in
  (inject_Z available_width / inject_Z (count + 2))%Q.

(** [(price / max_price) * 150]: the operands must be numbers and the divisor
    must not be zero. *)
Definition price_height (price : value) (max_price : num)
  : result (num * Q) :=
  p <- number price ;;
  ratio <- truediv p max_price ;;
  Ok (p, (ratio * 150)%Q).

(** The bar of the current listing and the text drawn for it. *)
Definition listing_bar (spacing : Q) (max_price : num) (current_price : value)
  : result (bar * string) :=
  ph <- price_height current_price max_price ;;
  let '(price, current_height) := ph in
  let x := (inject_Z padding + spacing)%Q in
  let y := (inject_Z (svg_height - 50) - current_height)%Q in
  Ok (Bar x y current_height,
      unlines
        [ EmptyString;
          lit "            <rect x='" ++ float_str x ++ lit "' y='" ++ float_str y ++ lit "' width='" ++ str_int bar_width ++ lit "' height='" ++ float_str current_height ++ lit "' class='current-bar'/>";
          lit "            <text x='" ++ float_str (x + inject_Z bar_width / 2) ++ lit "' y='" ++ float_str (y - 5) ++ lit "' text-anchor='middle' class='price-label'>Current ($" ++ comma_num price ++ lit ")</text>";
          lit "            <text x='" ++ float_str (x + inject_Z bar_width / 2) ++ lit "' y='" ++ str_int (svg_height - 35) ++ lit "' text-anchor='middle' class='label'>Listing</text>";
          lit "        " ]).

(** One round of the loop over [enumerate(comparable_sales)]; [sale_price] is
    [sale['price']], read a second time from the same unchanged entry. *)
Definition comparable_bar (spacing : Q) (max_price : num)
    (isale : Z * value) : result (bar * string) :=
  let '(i, sale_price) := isale in
  let x := (inject_Z padding + inject_Z (i + 2) * spacing
            + inject_Z ((i + 1) * bar_width))%Q in
  ph <- price_height sale_price max_price ;;
  let '(price, height) := ph in
  let y := (inject_Z (svg_height - 50) - height)%Q in
  Ok (Bar x y height,
      unlines
        [ EmptyString;
          lit "                <rect x='" ++ float_str x ++ lit "' y='" ++ float_str y ++ lit "' width='" ++ str_int bar_width ++ lit "' height='" ++ float_str height ++ lit "' class='bar'/>";
          lit "                <text x='" ++ float_str (x + inject_Z bar_width / 2) ++ lit "' y='" ++ float_str (y - 5) ++ lit "' text-anchor='middle' class='price-label'>$" ++ comma_num price ++ lit "</text>";
          lit "                <text x='" ++ float_str (x + inject_Z bar_width / 2) ++ lit "' y='" ++ str_int (svg_height - 35) ++ lit "' text-anchor='middle' class='label'>Comp " ++ str_int (i + 1) ++ lit "</text>";
          lit "            " ]).

(** [max_price] for a non-empty [comparable_sales]. *)
Definition valuation_max_price (valuation_data comparable_sales : value)
  : result num :=
  prices <- sale_prices comparable_sales ;;
  listing_price <- get valuation_data "listing_price" (PInt 0) ;;
  Py.max (prices ++ [listing_price]).

(** The bars in the order they are drawn: the listing, then the comparable
    sales. *)
Definition valuation_bars (valuation_data comparable_sales : value)
    (max_price : num) : result (list (bar * string)) :=
  prices <- sale_prices comparable_sales ;;
  let spacing := bar_spacing (Z.of_nat (length prices)) in
  current_price <- get valuation_data "listing_price" (PInt 0) ;;
  listing <- listing_bar spacing max_price current_price ;;
  comparables <- mapM (comparable_bar spacing max_price) (enumerate prices) ;;
  Ok (listing :: comparables).

Definition generate_valuation_chart (valuation_data : value) : result string :=
  comparable_sales <- get valuation_data "comparable_sales" (PList []) ;;
  if negb (truthy comparable_sales) then Ok default_bar_chart
  else
    max_price <- valuation_max_price valuation_data comparable_sales ;;
    let labels := List.map (y_axis_label max_price) [0.25; 0.5; 0.75; 1.0]%Q in
    bars <- valuation_bars valuation_data comparable_sales max_price ;;
    Ok (valuation_header
        ++ String.concat EmptyString labels
        ++ String.concat EmptyString (List.map snd bars)
        ++ "</svg>").

End ValuationChart.

(** *** Price per square foot comparison *)

(** [avg_pps = sum(comp_pps) / len(comp_pps)]; [sum] raises [TypeError] at
    the first element that is not a number. *)
Definition average (comp_pps : list value) : result (list num * Q) :=
  pps <- mapM number comp_pps ;;
  avg_pps <- truediv (Py.sum pps) (NInt (Z.of_nat (length comp_pps))) ;;
  Ok (pps, avg_pps).

(** One round of the loop over [enumerate(comp_pps)]. *)
Definition comparison_bar (ipps : Z * num) : string :=
  let '(i, pps) := ipps in
  let x := 150 + i * 70 in
  let height := (to_float pps / 2)%Q in
  let y := (100 - height)%Q in
  unlines
    [ EmptyString;
      lit "                <rect x='" ++ str_int x ++ lit "' y='" ++ float_str y ++ lit "' width='40' height='" ++ float_str height ++ lit "' class='bar'/>";
      lit "                <text x='" ++ str_int (x + 20) ++ lit "' y='" ++ float_str (y - 5) ++ lit "' text-anchor='middle' class='value'>$" ++ f0_num pps ++ lit "</text>";
      lit "                <text x='" ++ str_int (x + 20) ++ lit "' y='85' text-anchor='middle' class='label'>Comp " ++ str_int (i + 1) ++ lit "</text>";
      lit "            " ].

(** The lines of the template the document starts with: the current price
    per square foot and the line of the average. *)
Definition comparison_header (current_pps avg_pps : Q) : list string :=
    [ lit "<svg width='400' height='200' xmlns='http://www.w3.org/2000/svg'>";
      lit "            <style>";
      lit "                .bar { fill: #4299e1; }";
      lit "                .current-bar { fill: #48bb78; }";
      lit "                .avg-line { stroke: #ed8936; stroke-width: 2; stroke-dasharray: 5,5; }";
      lit "                .label { font-size: 12px; fill: #4a5568; font-family: sans-serif; }";
      lit "                .value { font-size: 11px; fill: #718096; font-family: sans-serif; }";
      lit "            </style>";
      lit "            ";
      lit "            <text x='10' y='20' class='label'>Price per Sq Ft Comparison</text>";
      lit "            ";
      lit "            <!-- Current property -->";
      lit "            <rect x='50' y='40' width='60' height='30' class='current-bar'/>";
      lit "            <text x='80' y='30' text-anchor='middle' class='value'>$" ++ float_f0 current_pps ++ lit "</text>";
      lit "            <text x='80' y='85' text-anchor='middle' class='label'>Current</text>";
      lit "            ";
      lit "            <!-- Average line -->";
      lit "            <line x1='0' y1='" ++ float_str (100 - avg_pps / 2) ++ lit "' x2='400' y2='" ++ float_str (100 - avg_pps / 2) ++ lit "' class='avg-line'/>";
      lit "            <text x='380' y='" ++ float_str (95 - avg_pps / 2) ++ lit "' text-anchor='end' class='value'>Avg: $" ++ float_f0 avg_pps ++ lit "</text>";
      lit "        " ].

(** The document for the current price per square foot, the comparables'
    figures and their average. *)
Definition comparison_document (current_pps : Q) (pps : list num) (avg_pps : Q)
  : string :=
  unlines (comparison_header current_pps avg_pps)
  ++ String.concat EmptyString (List.map comparison_bar (enumerate pps))
  ++ "</svg>".

(** [current_price / current_sqft] *)
Definition price_per_sqft (current_price current_sqft : value) : result Q :=
  price <- number current_price ;;
  sqft <- number current_sqft ;;
  truediv price sqft.

Definition generate_price_comparison
    (comparables current_price current_sqft : value) : result string :=
  if negb (truthy comparables) || eq_zero current_sqft
  then Ok default_comparison_chart
  else
    current_pps <- price_per_sqft current_price current_sqft ;;
    items <- iter comparables ;;
    comp_pps <- mapM (fun c => getitem c "price_per_sqft") items ;;
    avg <- average comp_pps ;;
    let '(pps, avg_pps) := avg in
    Ok (comparison_document current_pps pps avg_pps).

(** *** All charts *)

(** The [charts] dictionary, in insertion order. *)
Definition generate_all_charts (property_data : value)
  : result (list (string * string)) :=
  ratings <- get property_data "ratings" (PDict []) ;;
  ratings_radar <- generate_radar_chart ratings ;;
  valuation <- get property_data "valuation" (PDict []) ;;
  valuation_chart <- generate_valuation_chart valuation ;;
  valuation <- get property_data "valuation" (PDict []) ;;
  comparable_sales <- get valuation "comparable_sales" (PList []) ;;
  price <- get property_data "price" (PInt 0) ;;
  sqft <- get property_data "sqft" (PInt 0) ;;
  price_comparison <- generate_price_comparison comparable_sales price sqft ;;
  valuation <- get property_data "valuation" (PDict []) ;;
  price_trend <- get valuation "price_trend" (PStr "Stable") ;;
  market_trend <- generate_market_trend price_trend ;;
  ratings <- get property_data "ratings" (PDict []) ;;
  investment_potential <- get ratings "investment_potential" (PDict []) ;;
  score <- get investment_potential "score" (PInt 75) ;;
  investment_gauge <- generate_investment_gauge score ;;
  Ok [ ("ratings_radar", ratings_radar);
       ("valuation_chart", valuation_chart);
       ("price_comparison", price_comparison);
       ("market_trend", market_trend);
       ("investment_gauge", investment_gauge) ].

End AnalyticsGenerator.

(** ** A sample runtime

    One instance of [Runtime], used to run the generator on concrete inputs:
    cosine and sine by their Taylor polynomials of degree 20 and 21 at the
    argument rounded down to a multiple of 2^-20, floats printed in decimal
    with at most six digits after the point.  No general theorem below
    depends on it. *)

Module Sample.

Fixpoint taylor (terms : nat) (x2 term : Q) (k : Z) : Q :=
  match terms with
  | O => 0
  | S terms' =>
      (term + taylor terms' x2
                (Qred (- term * x2 / inject_Z ((k + 1) * (k + 2)))) (k + 2))%Q
  end.

Definition snap (x : Q) : Q := Qred (Qfloor (x * 1048576) # 1048576).

Definition cos (x : Q) : Q :=
  let x := snap x in Qred (taylor 11 (Qred (x * x)) 1 0).

Definition sin (x : Q) : Q :=
  let x := snap x in Qred (taylor 11 (Qred (x * x)) x 1).

(** The digits of [0 <= q < 1] after the point, [n] of them. *)
Fixpoint fraction_digits (n : nat) (q : Q) : string :=
  match n with
  | O => EmptyString
  | S n' =>
      let d := Qfloor (q * 10) in
      str_int d ++ fraction_digits n' (Qred (q * 10 - inject_Z d))
  end.

Fixpoint strip_zeros (rev_digits : list ascii) : list ascii :=
  match rev_digits with
  | "0"%char :: ((_ :: _) as rest) => strip_zeros rest
  | _ => rev_digits
  end.

Definition decimal (int_part : Z -> string) (q : Q) : string :=
  let a := Qabs q in
  let whole := Qfloor a in
  let digits := fraction_digits 6 (Qred (a - inject_Z whole)) in
  let digits :=
    string_of_list_ascii (rev (strip_zeros (rev (list_ascii_of_string digits)))) in
  (if Qle_bool 0 q then EmptyString else "-")
  ++ int_part whole ++ "." ++ digits.

(** Rounding to the nearest integer, ties to even. *)
Definition round_half_even (q : Q) : Z :=
  let f := Qfloor q in
  let r := (q - inject_Z f)%Q in
  if Qeq_bool r 0.5 then (if Z.even f then f else f + 1)
  else if Qle_bool r 0.5 then f else f + 1.

Definition runtime : Runtime :=
  {| math_cos := cos;
     math_sin := sin;
     float_str := decimal str_int;
     float_comma := decimal comma_int;
     float_f0 := fun q => str_int (round_half_even q) |}.

(** The record of the generator's own self-test, [main]. *)
Definition test_ratings : dict :=
  [ ("school_quality", PDict [("score", PInt 85)]);
    ("safety", PDict [("score", PInt 92)]);
    ("transportation", PDict [("score", PInt 78)]);
    ("amenities", PDict [("score", PInt 88)]);
    ("investment_potential", PDict [("score", PInt 82)]);
    ("environment", PDict [("score", PInt 90)]) ].

Definition test_sales : list value :=
  [ PDict [("price", PInt 425000); ("price_per_sqft", PInt 225)];
    PDict [("price", PInt 460000); ("price_per_sqft", PInt 240)];
    PDict [("price", PInt 440000); ("price_per_sqft", PInt 230)] ].

Definition test_valuation : dict :=
  [ ("listing_price", PInt 450000);
    ("comparable_sales", PList test_sales);
    ("price_trend", PStr "Rising") ].

Definition test_record : dict :=
  [ ("ratings", PDict test_ratings);
    ("valuation", PDict test_valuation) ].

Definition test_data : value := PDict test_record.

End Sample.

(** ** Vocabulary of the specification

    Definitions that follow the words of the specification; the
    theorems compare the generator with them. *)

(** An SVG path through the given points: [M x,y L x,y ...]. *)
Definition polyline (points : list (Z * Z)) : string :=
  "M" ++ join " L" (List.map (fun p => str_int (fst p) ++ "," ++ str_int (snd p))
                             points).

(** A three-point chevron whose apex lies above its two ends (the [y] axis of
    an SVG canvas points down), and one whose apex lies below them. *)
Definition chevron_up (points : list (Z * Z)) : Prop :=
  exists x1 y1 x2 y2 x3 y3,
    points = [(x1, y1); (x2, y2); (x3, y3)]
    /\ x1 < x2 < x3 /\ y2 < y1 /\ y2 < y3.

Definition chevron_down (points : list (Z * Z)) : Prop :=
  exists x1 y1 x2 y2 x3 y3,
    points = [(x1, y1); (x2, y2); (x3, y3)]
    /\ x1 < x2 < x3 /\ y1 < y2 /\ y3 < y2.

(** Every point at the same height. *)
Definition flat_line (points : list (Z * Z)) : Prop :=
  exists y, Forall (fun p => snd p = y) points.

(** Five points going down, up, down, up. *)
Definition zigzag (points : list (Z * Z)) : Prop :=
  exists x1 y1 x2 y2 x3 y3 x4 y4 x5 y5,
    points = [(x1, y1); (x2, y2); (x3, y3); (x4, y4); (x5, y5)]
    /\ y1 < y2 /\ y3 < y2 /\ y3 < y4 /\ y5 < y4.

(** The keys of [rating_map], in order. *)
Definition rating_keys : list string := List.map fst Radar.rating_map.

(** "score = rating.score if the key is present else default 75": the score
    of a category in a ratings mapping, [None] when the entry is not a mapping
    or its score is not a number. *)
Definition category_score (ratings : dict) (key : string) : option num :=
  match lookup key ratings with
  | None => Some (NInt 75)
  | Some (PDict rating) =>
      match lookup "score" rating with
      | None => Some (NInt 75)
      | Some score => as_num score
      end
  | Some _ => None
  end.

(** The price of a comparable sale, [None] when the entry is not a mapping
    with a numeric price. *)
Definition comparable_price (sale : value) : option num :=
  match sale with
  | PDict fields =>
      match lookup "price" fields with
      | Some price => as_num price
      | None => None
      end
  | _ => None
  end.

(** The listing price of a valuation record, 0 when it has none. *)
Definition listing_price (valuation : dict) : option num :=
  match lookup "listing_price" valuation with
  | Some price => as_num price
  | None => Some (NInt 0)
  end.

(** The price per unit area of a comparable sale. *)
Definition comparable_pps (sale : value) : option num :=
  match sale with
  | PDict fields =>
      match lookup "price_per_sqft" fields with
      | Some pps => as_num pps
      | None => None
      end
  | _ => None
  end.

(** The arithmetic mean of a list of numbers. *)
Definition mean (l : list num) : Q :=
  (fold_right (fun n acc => to_float n + acc) 0 l
   / inject_Z (Z.of_nat (length l)))%Q.

(** A score clamped to [0, 100]. *)
Definition clamp (score : Q) : Q := Qmax 0 (Qmin 100 score).


(** A property record whose sections, where present, have the shape the data
    model gives them.

    Ratings, when present, are a mapping in which every category present is
    a mapping whose score, if any, is a number. *)
Definition ratings_ok (ratings : option value) : Prop :=
  match ratings with
  | None => True
  | Some (PDict r) =>
      exists ns, List.map (category_score r) rating_keys = List.map Some ns
  | Some _ => False
  end.

(** Comparable sales, when present, are a list; when the list is not empty
    every sale carries a numeric price and a numeric price per unit area, the
    listing price is a number or missing, and some price is positive. *)
Definition comparables_ok (valuation : dict) : Prop :=
  match lookup "comparable_sales" valuation with
  | None => True
  | Some (PList []) => True
  | Some (PList sales) =>
      exists prices pps listing,
        List.map comparable_price sales = List.map Some prices
        /\ List.map comparable_pps sales = List.map Some pps
        /\ listing_price valuation = Some listing
        /\ Exists (fun p => (0 < to_float p)%Q) (prices ++ [listing])
  | Some _ => False
  end.

(** The price trend, when present, is a string. *)
Definition trend_ok (valuation : dict) : Prop :=
  match lookup "price_trend" valuation with
  | None | Some (PStr _) => True
  | Some _ => False
  end.

Definition valuation_ok (valuation : option value) : Prop :=
  match valuation with
  | None => True
  | Some (PDict v) => comparables_ok v /\ trend_ok v
  | Some _ => False
  end.

(** A field that is a number when present. *)
Definition number_ok (field : option value) : Prop :=
  match field with
  | None => True
  | Some v => exists n, as_num v = Some n
  end.

Definition well_formed (property_data : dict) : Prop :=
  ratings_ok (lookup "ratings" property_data)
  /\ valuation_ok (lookup "valuation" property_data)
  /\ number_ok (lookup "price" property_data)
  /\ number_ok (lookup "sqft" property_data).


(** ** The scraper's score classification

    [EnhancedPropertyScraper.score_to_color] and [score_to_label] of
    [src/process/enhanced_scraper.py], which the generator's own
    [score_to_color] says it is the same as. *)

Module EnhancedPropertyScraper.

Definition score_to_color (score : value) : result string :=
  c90 <- ge score 90 ;;
  if c90 then Ok "#10B981"
  else
    c80 <- ge score 80 ;;
    if c80 then Ok "#34D399"
    else
      c70 <- ge score 70 ;;
      if c70 then Ok "#FBBF24"
      else
        c60 <- ge score 60 ;;
        if c60 then Ok "#F59E0B"
        else Ok "#EF4444".

Definition score_to_label (score : value) : result string :=
  c90 <- ge score 90 ;;
  if c90 then Ok "Excellent" else
  c80 <- ge score 80 ;;
  if c80 then Ok "Very Good" else
  c70 <- ge score 70 ;;
  if c70 then Ok "Good" else
  c60 <- ge score 60 ;;
  if c60 then Ok "Fair" else
  Ok "Needs Attention".

End EnhancedPropertyScraper.

(** ** Further vocabulary *)

(** A category whose entry in a ratings mapping is there and is not itself a
    mapping. *)
Definition not_a_mapping (ratings : dict) (key : string) : Prop :=
  match lookup key ratings with
  | None | Some (PDict _) => False
  | Some _ => True
  end.

(** The score a category contributes when its entry is missing or a
    mapping: the entry's score field, 75 without one. *)
Definition score_field (ratings : dict) (key : string) : value :=
  match lookup key ratings with
  | Some (PDict rating) =>
      match lookup "score" rating with
      | Some score => score
      | None => PInt 75
      end
  | _ => PInt 75
  end.

(** A comparable sale that is a mapping with the given field, whatever the
    field holds. *)
Definition has_field (field : string) (sale : value) : Prop :=
  match sale with
  | PDict fields => lookup field fields <> None
  | _ => False
  end.

(** The comparable prices followed by the listing price: the numbers the
    valuation chart takes the greatest of. *)
Definition all_prices (prices : list num) (listing : num) : list num :=
  prices ++ [listing].

(** ** Basic facts

    The exception monad, numbers, dictionaries and [enumerate]. *)

Lemma mapM_ok {A B : Type} (f : A -> result B) (g : A -> B) (l : list A) :
  (forall x, In x l -> f x = Ok (g x)) -> mapM f l = Ok (List.map g l).
Proof.
  induction l as [|x l IH]; intros H; simpl; [reflexivity|].
  rewrite (H x) by (left; reflexivity). simpl.
  rewrite IH by (intros y Hy; apply H; right; exact Hy). reflexivity.
Qed.

Lemma ge_int_spec (n : num) (k : Z) :
  ge_int n k = true <-> (inject_Z k <= to_float n)%Q.
Proof.
  destruct n as [z|q]; simpl.
  - rewrite Z.leb_le, Zle_Qle. reflexivity.
  - apply Qle_bool_iff.
Qed.

Lemma ge_int_false (n : num) (k : Z) :
  ge_int n k = false <-> (to_float n < inject_Z k)%Q.
Proof.
  rewrite <- not_true_iff_false, ge_int_spec. split.
  - apply Qnot_le_lt.
  - apply Qlt_not_le.
Qed.

Lemma number_of_num (n : num) : number (of_num n) = Ok n.
Proof. destruct n; reflexivity. Qed.

Lemma ge_of_num (n : num) (k : Z) : ge (of_num n) k = Ok (ge_int n k).
Proof. unfold ge. rewrite number_of_num. reflexivity. Qed.

Lemma as_num_of_num (v : value) (n : num) : as_num v = Some n -> v = of_num n.
Proof. destruct v; simpl; intros H; inversion H; reflexivity. Qed.

Lemma eq_zero_of_num (n : num) : eq_zero (of_num n) = is_zero n.
Proof. destruct n; reflexivity. Qed.

Lemma gt_spec (a b : num) : gt a b = true <-> (to_float b < to_float a)%Q.
Proof.
  assert (Hq : forall x y : Q, negb (Qle_bool x y) = true <-> (y < x)%Q).
  { intros x y. rewrite negb_true_iff, <- not_true_iff_false, Qle_bool_iff.
    split; [apply Qnot_le_lt | apply Qlt_not_le]. }
  destruct a as [x|x], b as [y|y]; simpl; try apply Hq.
  rewrite Z.ltb_lt, Zlt_Qlt. reflexivity.
Qed.

Lemma gt_false (a b : num) : gt a b = false <-> (to_float a <= to_float b)%Q.
Proof.
  rewrite <- not_true_iff_false, gt_spec.
  split; [apply Qnot_lt_le | apply Qle_not_lt].
Qed.

(** [max] returns an element of its argument that no element exceeds. *)
Lemma max_num_spec (rest : list num) (first : num) :
  In (max_num first rest) (first :: rest)
  /\ Forall (fun p => (to_float p <= to_float (max_num first rest))%Q)
            (first :: rest).
Proof.
  revert first. induction rest as [|x rest IH]; intros first.
  - simpl. split; [left; reflexivity|].
    constructor; [apply Qle_refl | constructor].
  - change (max_num first (x :: rest))
      with (max_num (if gt x first then x else first) rest).
    destruct (IH (if gt x first then x else first)) as [Hin Hall].
    inversion Hall as [|? ? Hhead Htail]; subst.
    split.
    + destruct Hin as [Hin|Hin]; [|right; right; exact Hin].
      rewrite <- Hin. destruct (gt x first); [right; left|left]; reflexivity.
    + destruct (gt x first) eqn:Hgt.
      * apply gt_spec in Hgt.
        constructor; [|constructor; assumption].
        eapply Qle_trans; [apply Qlt_le_weak; exact Hgt | exact Hhead].
      * apply gt_false in Hgt.
        constructor; [exact Hhead|].
        constructor; [|assumption].
        eapply Qle_trans; [exact Hgt | exact Hhead].
Qed.

Lemma positive_not_zero (n : num) : (0 < to_float n)%Q -> is_zero n = false.
Proof.
  destruct n as [z|q]; simpl; intros H.
  - apply Z.eqb_neq. intros ->. apply Qlt_irrefl in H. exact H.
  - apply not_true_iff_false. rewrite Qeq_bool_iff. intros Hq.
    rewrite Hq in H. apply Qlt_irrefl in H. exact H.
Qed.

Lemma mapM_number (ns : list num) : mapM number (List.map of_num ns) = Ok ns.
Proof.
  induction ns as [|n ns IH]; simpl; [reflexivity|].
  rewrite number_of_num. simpl. rewrite IH. reflexivity.
Qed.

Lemma max_of_numbers (first : num) (rest : list num) :
  Py.max (List.map of_num (first :: rest)) = Ok (max_num first rest).
Proof. unfold Py.max. rewrite mapM_number. reflexivity. Qed.

Lemma to_float_add (a b : num) :
  (to_float (add a b) == to_float a + to_float b)%Q.
Proof.
  destruct a as [x|x], b as [y|y]; simpl; try reflexivity.
  rewrite inject_Z_plus. reflexivity.
Qed.

Lemma to_float_fold_add (l : list num) (start : num) :
  (to_float (fold_left add l start)
   == to_float start + fold_right (fun n acc => to_float n + acc) 0 l)%Q.
Proof.
  revert start. induction l as [|n l IH]; intros start; simpl.
  - ring.
  - rewrite IH, to_float_add. ring.
Qed.

(** [sum] adds up the numbers, whatever the mix of integers and floats. *)
Lemma to_float_sum (l : list num) :
  (to_float (Py.sum l) == fold_right (fun n acc => to_float n + acc) 0 l)%Q.
Proof.
  unfold Py.sum. rewrite to_float_fold_add. simpl. ring.
Qed.

(** A dictionary holds one value per key: the order of the entries of its
    association list does not change what a key is bound to. *)
Lemma lookup_Permutation (d d' : dict) :
  Permutation d d' -> NoDup (List.map fst d) ->
  forall key, lookup key d = lookup key d'.
Proof.
  induction 1 as [|[k v] d d' HP IH|[k1 v1] [k2 v2] d|d d' d'' HP1 IH1 HP2 IH2];
    intros Hnd key.
  - reflexivity.
  - simpl. inversion Hnd; subst. rewrite IH by assumption. reflexivity.
  - simpl. inversion Hnd as [|? ? Hnot _]; subst.
    destruct (String.eqb_spec k1 key) as [->|H1];
      destruct (String.eqb_spec k2 key) as [->|H2]; try reflexivity.
    exfalso. apply Hnot. left. reflexivity.
  - rewrite IH1 by assumption. apply IH2.
    eapply Permutation_NoDup; [|exact Hnd].
    apply Permutation_map. exact HP1.
Qed.

Lemma enumerate_from_index {A : Type} (l : list A) (k i : Z) (x : A) :
  In (i, x) (enumerate_from k l) -> k <= i.
Proof.
  revert k. induction l as [|y l IH]; intros k; simpl; [tauto|].
  intros [H|H].
  - inversion H. lia.
  - apply IH in H. lia.
Qed.

Lemma enumerate_from_length {A : Type} (l : list A) (k : Z) :
  length (enumerate_from k l) = length l.
Proof.
  revert k. induction l as [|x l IH]; intros k; simpl; [|rewrite IH];
    reflexivity.
Qed.

Lemma map_snd_enumerate_from {A : Type} (l : list A) (k : Z) :
  List.map snd (enumerate_from k l) = l.
Proof.
  revert k. induction l as [|x l IH]; intros k; simpl; [|rewrite IH];
    reflexivity.
Qed.

(** ** Score classification *)

Section Classification.

(** The colour and the label of a number, by the thresholds it reaches. *)
Lemma score_to_color_of_num (n : num) :
  score_to_color (of_num n) =
  Ok (if ge_int n 90 then "#10B981"
      else if ge_int n 80 then "#34D399"
      else if ge_int n 70 then "#FBBF24"
      else if ge_int n 60 then "#F59E0B"
      else "#EF4444").
Proof.
  unfold score_to_color. rewrite !ge_of_num. simpl.
  repeat (match goal with |- context [ge_int n ?k] => destruct (ge_int n k) end;
          simpl; try reflexivity).
Qed.

Lemma score_to_label_of_num (n : num) :
  score_to_label (of_num n) =
  Ok (if ge_int n 90 then "Excellent"
      else if ge_int n 80 then "Very Good"
      else if ge_int n 70 then "Good"
      else if ge_int n 60 then "Fair"
      else "Needs Attention").
Proof.
  unfold score_to_label. rewrite !ge_of_num. simpl.
  repeat (match goal with |- context [ge_int n ?k] => destruct (ge_int n k) end;
          simpl; try reflexivity).
Qed.

Ltac thresholds n :=
  destruct (ge_int n 90) eqn:H90; destruct (ge_int n 80) eqn:H80;
  destruct (ge_int n 70) eqn:H70; destruct (ge_int n 60) eqn:H60;
  repeat match goal with
         | H : ge_int _ _ = true |- _ => apply ge_int_spec in H
         | H : ge_int _ _ = false |- _ => apply ge_int_false in H
         end;
  unfold inject_Z in *.

(** Claim C5.  [score_to_color] and [score_to_label] return a result for
    every number, integer or float.  The thresholds 60, 70, 80 and 90 cut
    the scores into five contiguous closed-open intervals: a score of at
    least 90 is "Excellent" with the strongest positive colour, 80 <= s < 90
    is "Very Good", 70 <= s < 80 is "Good", 60 <= s < 70 is "Fair", and a
    score below 60 is "Needs Attention" with the strongest negative colour.
    The five colours are pairwise distinct and so are the five labels, and
    the colour and the label of a score always belong to the same interval.
    A score on a threshold belongs to the higher interval: 90 is
    "Excellent", and 80 is classified as 85 is and not as 79 is. *)
Theorem score_classification_buckets (n : num) :
  exists color label,
    score_to_color (of_num n) = Ok color
    /\ score_to_label (of_num n) = Ok label
    /\ ((90 <= to_float n)%Q ->
        color = "#10B981" /\ label = "Excellent")
    /\ ((80 <= to_float n < 90)%Q ->
        color = "#34D399" /\ label = "Very Good")
    /\ ((70 <= to_float n < 80)%Q ->
        color = "#FBBF24" /\ label = "Good")
    /\ ((60 <= to_float n < 70)%Q ->
        color = "#F59E0B" /\ label = "Fair")
    /\ ((to_float n < 60)%Q ->
        color = "#EF4444" /\ label = "Needs Attention")
    /\ NoDup ["#10B981"; "#34D399"; "#FBBF24"; "#F59E0B"; "#EF4444"]
    /\ NoDup ["Excellent"; "Very Good"; "Good"; "Fair"; "Needs Attention"]
    /\ score_to_label (PInt 90) = Ok "Excellent"
    /\ score_to_color (PInt 80) = score_to_color (PInt 85)
    /\ score_to_label (PInt 80) = score_to_label (PInt 85)
    /\ score_to_color (PInt 80) <> score_to_color (PInt 79)
    /\ score_to_label (PInt 80) <> score_to_label (PInt 79).
Proof.
  do 2 eexists.
  split; [apply score_to_color_of_num|].
  split; [apply score_to_label_of_num|].
  repeat split;
    try (intros; thresholds n; first [reflexivity | exfalso; lra]);
    try (repeat constructor; simpl; intuition discriminate);
    try reflexivity; try discriminate.
Qed.

End Classification.

(** ** Investment gauge *)

Section Gauge.

Context {RT : Runtime}.


End Gauge.

(** ** Market trend indicator *)

Section Trend.

Context {RT : Runtime}.

Lemma eqb_neq_false (a b : string) : a <> b -> String.eqb b a = false.
Proof. intros H. apply String.eqb_neq. congruence. Qed.

(** Claim C9.  For every string the trend indicator returns the trend
    template filled with a colour, the string itself and an icon path, and
    never raises.  "Rising" gives an upward chevron in #48bb78, "Declining" a
    downward chevron in #f56565, "Stable" a flat line in #fbbf24 and
    "Volatile" a zigzag in #9f7aea; every other string, "Skyrocketing"
    included, gives the zigzag in the neutral colour #a0aec0. *)
Theorem market_trend_glyphs (trend : string) :
  let color := trend_color (PStr trend) "#a0aec0" in
  let icon := trend_icon (PStr trend) in
  generate_market_trend (PStr trend)
  = Ok (unlines (trend_lines color trend icon))
  /\ nth_error (trend_lines color trend icon) 2
     = Some (lit "                .trend-icon { fill: " ++ color ++ lit "; }")
  /\ nth_error (trend_lines color trend icon) 13
     = Some (lit "            <path class='trend-icon' d='" ++ icon
             ++ lit "' stroke='" ++ color
             ++ lit "' stroke-width='3' fill='none'/>")
  /\ (trend = "Rising" ->
      color = "#48bb78"
      /\ icon = polyline [(60, 65); (75, 50); (90, 65)]
      /\ chevron_up [(60, 65); (75, 50); (90, 65)])
  /\ (trend = "Declining" ->
      color = "#f56565"
      /\ icon = polyline [(60, 50); (75, 65); (90, 50)]
      /\ chevron_down [(60, 50); (75, 65); (90, 50)])
  /\ (trend = "Stable" ->
      color = "#fbbf24"
      /\ icon = polyline [(60, 60); (75, 60); (90, 60)]
      /\ flat_line [(60, 60); (75, 60); (90, 60)])
  /\ (trend = "Volatile" ->
      color = "#9f7aea"
      /\ icon = polyline [(60, 55); (68, 65); (75, 45); (82, 65); (90, 55)]
      /\ zigzag [(60, 55); (68, 65); (75, 45); (82, 65); (90, 55)])
  /\ (trend <> "Rising" -> trend <> "Declining" ->
      trend <> "Stable" -> trend <> "Volatile" ->
      color = "#a0aec0"
      /\ icon = polyline [(60, 55); (68, 65); (75, 45); (82, 65); (90, 55)])
  /\ generate_market_trend (PStr "Skyrocketing")
     = Ok (unlines
             (trend_lines
                "#a0aec0" "Skyrocketing"
                (polyline [(60, 55); (68, 65); (75, 45); (82, 65); (90, 55)]))).
Proof.
  intros color icon.
  split; [reflexivity|].
  split; [reflexivity|].
  split; [reflexivity|].
  split; [|split; [|split; [|split; [|split]]]]; [| | | | |reflexivity].
  - intros ->. repeat split.
    exists 60, 65, 75, 50, 90, 65. repeat split; lia.
  - intros ->. repeat split.
    exists 60, 50, 75, 65, 90, 50. repeat split; lia.
  - intros ->. repeat split.
    exists 60. repeat constructor.
  - intros ->. repeat split.
    exists 60, 55, 68, 65, 75, 45, 82, 65, 90, 55. repeat split; lia.
  - intros HR HD HS HV.
    subst color icon.
    unfold trend_color, trend_icon, eq_str, trend_colors, assoc.
    rewrite (eqb_neq_false _ _ HR), (eqb_neq_false _ _ HD),
            (eqb_neq_false _ _ HS), (eqb_neq_false _ _ HV).
    apply String.eqb_neq in HR, HD, HS.
    rewrite HR, HD, HS.
    split; reflexivity.
Qed.

(** The trend indicator raises for no hashable value. *)
Lemma market_trend_total (trend : value) :
  hashable trend = true ->
  exists svg, generate_market_trend trend = Ok svg.
Proof.
  destruct trend; simpl; try discriminate; intros _;
    unfold generate_market_trend; simpl; eexists; reflexivity.
Qed.

End Trend.

(** ** Ratings radar chart *)

Section RadarFacts.

Context {RT : Runtime}.

(** The loop body of the generator computes the score the specification
    describes. *)
Lemma rating_score_category (d : dict) (key : string) (n : num) :
  category_score d key = Some n ->
  rating_score (PDict d) key = Ok (of_num n).
Proof.
  unfold category_score, rating_score. simpl.
  destruct (lookup key d) as [entry|]; simpl.
  - destruct entry; try discriminate. simpl.
    destruct (lookup "score" d0) as [score|]; intros H.
    + rewrite (as_num_of_num _ _ H). reflexivity.
    + inversion H. reflexivity.
  - intros H. inversion H. reflexivity.
Qed.

Lemma rating_score_lookup (d d' : dict) (key : string) :
  lookup key d = lookup key d' ->
  rating_score (PDict d) key = rating_score (PDict d') key.
Proof. unfold rating_score. simpl. intros ->. reflexivity. Qed.

(** The radar chart and the placeholder part ways after their common first
    line: a style sheet on one side, the background rectangle on the other. *)
Lemma radar_document_not_placeholder (scores : list value) (svg : string) :
  radar_document scores = Ok svg -> svg <> default_radar_chart.
Proof.
  unfold radar_document.
  destruct (data_rounds scores) as [rounds|e]; simpl; [|discriminate].
  intros H. injection H as <-.
  generalize (radar_axes
              ++ String.concat EmptyString (List.map snd rounds)
              ++ polygon_element (List.map fst rounds) ++ "</svg>").
  intros rest Heq.
  apply (f_equal (String.get 80)) in Heq.
  lazy in Heq. discriminate.
Qed.

Lemma collect_scores_category (d : dict) (ns : list num) :
  List.map (category_score d) rating_keys = List.map Some ns ->
  collect_scores (PDict d) = Ok (List.map of_num ns).
Proof.
  unfold rating_keys, collect_scores, Radar.rating_map. simpl.
  destruct ns as [|n0 [|n1 [|n2 [|n3 [|n4 [|n5 [|]]]]]]]; try discriminate.
  intros H. injection H as H0 H1 H2 H3 H4 H5.
  rewrite (rating_score_category _ _ _ H0), (rating_score_category _ _ _ H1),
          (rating_score_category _ _ _ H2), (rating_score_category _ _ _ H3),
          (rating_score_category _ _ _ H4), (rating_score_category _ _ _ H5).
  reflexivity.
Qed.

Lemma data_rounds_numbers (ns : list num) :
  data_rounds (List.map of_num ns)
  = Ok (List.map (fun '(i, n) =>
                    (data_point (Z.of_nat (length ns)) i n,
                     data_marker (Z.of_nat (length ns)) i n))
                 (enumerate ns)).
Proof.
  unfold data_rounds, enumerate. rewrite length_map.
  generalize (Z.of_nat (length ns)) as count. generalize 0 as i.
  induction ns as [|n ns IH]; intros i count; simpl; [reflexivity|].
  rewrite number_of_num. simpl. rewrite IH. reflexivity.
Qed.

Lemma collect_scores_lookup (d d' : dict) :
  (forall key, lookup key d = lookup key d') ->
  collect_scores (PDict d) = collect_scores (PDict d').
Proof.
  intros H. unfold collect_scores, Radar.rating_map. simpl.
  rewrite !(rating_score_lookup d d') by apply H. reflexivity.
Qed.

Lemma category_score_absent (d : dict) :
  (forall key, In key rating_keys -> lookup key d = None) ->
  List.map (category_score d) rating_keys
  = List.map Some (repeat (NInt 75) 6).
Proof.
  intros H. unfold rating_keys, Radar.rating_map, category_score. simpl.
  rewrite !H by (unfold rating_keys; simpl; tauto).
  reflexivity.
Qed.

Lemma category_scores_length (d : dict) (ns : list num) :
  List.map (category_score d) rating_keys = List.map Some ns ->
  length ns = 6%nat.
Proof.
  intros H. apply (f_equal (@length _)) in H.
  rewrite !length_map in H. symmetry. exact H.
Qed.

(** [polar r angle] lies at distance [r] from the centre of the canvas
    wherever the runtime's cosine and sine of [angle] lie on the unit
    circle. *)
Lemma polar_distance (r angle : Q) :
  (math_cos angle * math_cos angle + math_sin angle * math_sin angle == 1)%Q ->
  ((fst (polar r angle) - 200) * (fst (polar r angle) - 200)
   + (snd (polar r angle) - 150) * (snd (polar r angle) - 150)
   == r * r)%Q.
Proof.
  intros Hunit. unfold polar. cbn [fst snd].
  change (inject_Z Radar.center_x) with 200%Q.
  change (inject_Z Radar.center_y) with 150%Q.
  transitivity
    (r * r * (math_cos angle * math_cos angle
              + math_sin angle * math_sin angle))%Q; [ring|].
  rewrite Hunit. ring.
Qed.

(** The chart drawn for a non-empty ratings mapping whose categories have
    the scores [ns]. *)
Lemma generate_radar_chart_scores (d : dict) (ns : list num) :
  d <> [] ->
  List.map (category_score d) rating_keys = List.map Some ns ->
  polygon_points (List.map of_num ns)
  = Ok (List.map (fun '(i, n) => data_point 6 i n) (enumerate ns))
  /\ generate_radar_chart (PDict d)
     = Ok (radar_header
           ++ radar_axes
           ++ String.concat EmptyString
                (List.map (fun '(i, n) => data_marker 6 i n) (enumerate ns))
           ++ polygon_element
                (List.map (fun '(i, n) => data_point 6 i n) (enumerate ns))
           ++ "</svg>").
Proof.
  intros Hne Hscores.
  pose proof (collect_scores_category d ns Hscores) as Hcollect.
  pose proof (category_scores_length d ns Hscores) as Hlen.
  assert (Hrounds := data_rounds_numbers ns).
  rewrite Hlen in Hrounds. change (Z.of_nat 6) with 6 in Hrounds.
  assert (Hfst : List.map fst
                   (List.map (fun '(i, n) =>
                                (data_point 6 i n, data_marker 6 i n))
                             (enumerate ns))
                 = List.map (fun '(i, n) => data_point 6 i n) (enumerate ns)).
  { rewrite map_map. apply map_ext. intros [i n]. reflexivity. }
  assert (Hsnd : List.map snd
                   (List.map (fun '(i, n) =>
                                (data_point 6 i n, data_marker 6 i n))
                             (enumerate ns))
                 = List.map (fun '(i, n) => data_marker 6 i n) (enumerate ns)).
  { rewrite map_map. apply map_ext. intros [i n]. reflexivity. }
  split.
  - unfold polygon_points. rewrite Hrounds. simpl. rewrite Hfst. reflexivity.
  - unfold generate_radar_chart.
    destruct d as [|entry d]; [contradiction|].
    cbn [truthy negb]. rewrite Hcollect. cbn [bind].
    unfold radar_document. rewrite Hrounds. cbn [bind].
    rewrite Hfst, Hsnd. reflexivity.
Qed.


(** Claim C2, as the generator has it.  Ratings that are absent ([None]) and
    ratings that are an empty mapping both give the placeholder document,
    byte for byte.  A ratings mapping that is present and not empty gives the
    radar chart: when it holds none of the six categories the chart is the
    one of six default scores of 75, and whatever it holds, the chart it
    gives is never the placeholder. *)
Theorem radar_placeholder_when_no_ratings :
  generate_radar_chart PNone = Ok default_radar_chart
  /\ generate_radar_chart (PDict []) = Ok default_radar_chart
  /\ (forall d : dict,
        d <> [] ->
        (forall key, In key rating_keys -> lookup key d = None) ->
        exists svg,
          generate_radar_chart (PDict d) = Ok svg
          /\ radar_document (repeat (PInt 75) 6) = Ok svg
          /\ svg <> default_radar_chart)
  /\ (forall (d : dict) (svg : string),
        d <> [] ->
        generate_radar_chart (PDict d) = Ok svg ->
        svg <> default_radar_chart).
Proof.
  split; [reflexivity|]. split; [reflexivity|]. split.
  - intros d Hne Habsent.
    pose proof (collect_scores_category d _ (category_score_absent d Habsent))
      as Hcollect.
    change (List.map of_num (repeat (NInt 75) 6))
      with (repeat (PInt 75) 6) in Hcollect.
    destruct (radar_document (repeat (PInt 75) 6)) as [svg|e] eqn:Hdoc.
    + exists svg. split; [|split; [reflexivity|]].
      * unfold generate_radar_chart.
        destruct d as [|entry d]; [contradiction|].
        cbn [truthy negb]. rewrite Hcollect. exact Hdoc.
      * eapply radar_document_not_placeholder. exact Hdoc.
    + exfalso. unfold radar_document in Hdoc.
      change (repeat (PInt 75) 6)
        with (List.map of_num (repeat (NInt 75) 6)) in Hdoc.
      rewrite data_rounds_numbers in Hdoc. discriminate.
  - intros d svg Hne.
    unfold generate_radar_chart.
    destruct d as [|entry d]; [contradiction|].
    cbn [truthy negb].
    destruct (collect_scores (PDict (entry :: d))) as [scores|e];
      simpl; [|discriminate].
    apply radar_document_not_placeholder.
Qed.

End RadarFacts.

(** ** Valuation bar chart *)

Lemma sale_prices_comparable (sales : list value) (prices : list num) :
  List.map comparable_price sales = List.map Some prices ->
  sale_prices (PList sales) = Ok (List.map of_num prices).
Proof.
  unfold sale_prices. simpl.
  revert prices. induction sales as [|sale sales IH]; intros [|p prices] H;
    try discriminate; [reflexivity|].
  simpl in H. injection H as Hp Hrest.
  simpl. rewrite (IH _ Hrest).
  destruct sale; try discriminate. simpl in *.
  destruct (lookup "price" d) as [price|]; [|discriminate].
  rewrite (as_num_of_num _ _ Hp). reflexivity.
Qed.

Lemma listing_price_get (d : dict) (listing : num) :
  listing_price d = Some listing ->
  get (PDict d) "listing_price" (PInt 0) = Ok (of_num listing).
Proof.
  unfold listing_price. simpl.
  destruct (lookup "listing_price" d) as [price|]; intros H.
  - rewrite (as_num_of_num _ _ H). reflexivity.
  - inversion H. reflexivity.
Qed.

Section ValuationFacts.

Context {RT : Runtime}.

Lemma price_height_number (price max_price : num) :
  is_zero max_price = false ->
  price_height (of_num price) max_price
  = Ok (price, (to_float price / to_float max_price * 150)%Q).
Proof.
  intros Hz. unfold price_height, truediv.
  rewrite number_of_num, Hz. reflexivity.
Qed.

Lemma listing_bar_number (spacing : Q) (max_price price : num) :
  is_zero max_price = false ->
  exists text,
    listing_bar spacing max_price (of_num price)
    = Ok (Bar (60 + spacing)
              (250 - to_float price / to_float max_price * 150)
              (to_float price / to_float max_price * 150), text).
Proof.
  intros Hz. unfold listing_bar.
  rewrite (price_height_number _ _ Hz). cbn [bind].
  eexists. reflexivity.
Qed.

Lemma comparable_bar_number (spacing : Q) (max_price price : num) (i : Z) :
  is_zero max_price = false ->
  exists text,
    comparable_bar spacing max_price (i, of_num price)
    = Ok (Bar (60 + inject_Z (i + 2) * spacing + inject_Z ((i + 1) * 40))
              (250 - to_float price / to_float max_price * 150)
              (to_float price / to_float max_price * 150), text).
Proof.
  intros Hz. unfold comparable_bar.
  rewrite (price_height_number _ _ Hz). cbn [bind].
  eexists. reflexivity.
Qed.

Lemma comparable_bars_numbers (spacing : Q) (max_price : num)
    (prices : list num) (k : Z) :
  is_zero max_price = false ->
  exists bars,
    mapM (comparable_bar spacing max_price)
         (enumerate_from k (List.map of_num prices)) = Ok bars
    /\ List.map fst bars
       = List.map
           (fun ip =>
              Bar (60 + inject_Z (fst ip + 2) * spacing
                   + inject_Z ((fst ip + 1) * 40))
                  (250 - to_float (snd ip) / to_float max_price * 150)
                  (to_float (snd ip) / to_float max_price * 150))
           (enumerate_from k prices).
Proof.
  intros Hz. revert k.
  induction prices as [|p prices IH]; intros k;
    cbn [mapM enumerate_from List.map].
  - exists []. split; reflexivity.
  - destruct (comparable_bar_number spacing max_price p k Hz) as [text ->].
    destruct (IH (k + 1)) as (bars & -> & Hbars).
    eexists. split; [reflexivity|].
    cbn [List.map fst snd]. rewrite Hbars. reflexivity.
Qed.

Lemma bar_spacing_gap (count : Z) :
  0 <= count -> (0 < bar_spacing count + 40)%Q.
Proof.
  intros Hc. unfold bar_spacing, Valuation.svg_width, Valuation.padding,
    Valuation.bar_width.
  replace (500 - 2 * 60 - (count + 1) * 40) with (420 - 40 * (count + 2))
    by lia.
  unfold Z.sub. rewrite inject_Z_plus, inject_Z_opp, inject_Z_mult.
  assert (Hb : (0 < inject_Z (count + 2))%Q).
  { change 0%Q with (inject_Z 0). rewrite <- Zlt_Qlt. lia. }
  set (b := inject_Z (count + 2)) in *.
  assert (Heq : ((inject_Z 420 + - (inject_Z 40 * b)) / b + 40 == 420 / b)%Q).
  { change (inject_Z 420) with 420%Q. change (inject_Z 40) with 40%Q.
    field. intros H0. rewrite H0 in Hb. apply Qlt_irrefl in Hb. exact Hb. }
  rewrite Heq. apply Qlt_shift_div_l; [exact Hb|]. lra.
Qed.

Lemma listing_bar_leftmost (count i : Z) :
  0 <= count -> 0 <= i ->
  (60 + bar_spacing count
   < 60 + inject_Z (i + 2) * bar_spacing count + inject_Z ((i + 1) * 40))%Q.
Proof.
  intros Hc Hi.
  pose proof (bar_spacing_gap count Hc) as Hgap.
  set (s := bar_spacing count) in *.
  assert (Hi1 : (0 < inject_Z (i + 1))%Q).
  { change 0%Q with (inject_Z 0). rewrite <- Zlt_Qlt. lia. }
  assert (Hprod : (0 < inject_Z (i + 1) * (s + 40))%Q).
  { apply Qmult_lt_0_compat; assumption. }
  replace (i + 2) with ((i + 1) + 1) by lia.
  rewrite inject_Z_mult, !inject_Z_plus.
  rewrite inject_Z_plus in Hprod.
  change (inject_Z 40) with 40%Q. change (inject_Z 1) with 1%Q in *.
  lra.
Qed.

Lemma normalised_height_bound (price max_price : Q) :
  (0 < max_price)%Q -> (price <= max_price)%Q ->
  (price / max_price * 150 <= 150)%Q.
Proof.
  intros Hpos Hle.
  assert (Hr : (price / max_price <= 1)%Q).
  { apply Qle_shift_div_r; [exact Hpos | lra]. }
  set (r := (price / max_price)%Q) in *. lra.
Qed.

Lemma max_price_positive (prices : list num) (max_price : num) :
  Exists (fun p => (0 < to_float p)%Q) prices ->
  Forall (fun p => (to_float p <= to_float max_price)%Q) prices ->
  (0 < to_float max_price)%Q.
Proof.
  intros Hex Hall. apply Exists_exists in Hex. destruct Hex as (p & Hin & Hp).
  rewrite Forall_forall in Hall. specialize (Hall p Hin).
  eapply Qlt_le_trans; eassumption.
Qed.

(** The bars drawn for a valuation record with at least one comparable
    sale, numeric prices and some positive price. *)
Lemma valuation_chart_bars
    (d : dict) (sales : list value) (prices : list num) (listing : num) :
  lookup "comparable_sales" d = Some (PList sales) ->
  sales <> [] ->
  List.map comparable_price sales = List.map Some prices ->
  listing_price d = Some listing ->
  Exists (fun p => (0 < to_float p)%Q) (prices ++ [listing]) ->
  exists (max_price : num) (bars : list (bar * string)),
    valuation_max_price (PDict d) (PList sales) = Ok max_price
    /\ In max_price (prices ++ [listing])
    /\ Forall (fun p => (to_float p <= to_float max_price)%Q)
              (prices ++ [listing])
    /\ valuation_bars (PDict d) (PList sales) max_price = Ok bars
    /\ generate_valuation_chart (PDict d)
       = Ok (valuation_header
             ++ String.concat EmptyString
                  (List.map (y_axis_label max_price) [0.25; 0.5; 0.75; 1.0]%Q)
             ++ String.concat EmptyString (List.map snd bars)
             ++ "</svg>")
    /\ length bars = S (length sales)
    /\ List.map (fun b => bar_height (fst b)) bars
       = List.map (fun p => (to_float p / to_float max_price * 150)%Q)
                  (listing :: prices)
    /\ Forall (fun b => (bar_height (fst b) <= 150)%Q
                        /\ bar_y (fst b) = (250 - bar_height (fst b))%Q)
              bars
    /\ (exists first rest,
          bars = first :: rest
          /\ Forall (fun b => (bar_x (fst first) < bar_x (fst b))%Q) rest).
Proof.
  intros Hsales Hne Hprices Hlisting Hpos.
  pose proof (sale_prices_comparable _ _ Hprices) as Hsp.
  pose proof (listing_price_get _ _ Hlisting) as Hget.
  assert (Hlen : length prices = length sales).
  { apply (f_equal (@length _)) in Hprices.
    rewrite !length_map in Hprices. symmetry. exact Hprices. }
  destruct prices as [|p0 prices];
    [destruct sales; [contradiction | discriminate]|].
  set (max_price := max_num p0 (prices ++ [listing])).
  destruct (max_num_spec (prices ++ [listing]) p0) as [Hin Hall].
  fold max_price in Hin, Hall.
  change (p0 :: prices ++ [listing])%list
    with ((p0 :: prices) ++ [listing])%list in Hin, Hall.
  pose proof (max_price_positive _ _ Hpos Hall) as Hmax.
  pose proof (positive_not_zero _ Hmax) as Hz.
  assert (Hmaxp : valuation_max_price (PDict d) (PList sales) = Ok max_price).
  { unfold valuation_max_price. rewrite Hsp, Hget. cbn [bind].
    change [of_num listing] with (List.map of_num [listing]).
    rewrite <- map_app. apply max_of_numbers. }
  destruct (listing_bar_number
              (bar_spacing (Z.of_nat (length (p0 :: prices))))
              max_price listing Hz) as [text Hlb].
  destruct (comparable_bars_numbers
              (bar_spacing (Z.of_nat (length (p0 :: prices))))
              max_price (p0 :: prices) 0 Hz) as (cbars & Hcb & Hcfst).
  assert (Hbars : valuation_bars (PDict d) (PList sales) max_price
                  = Ok ((Bar (60 + bar_spacing (Z.of_nat (length (p0 :: prices))))
                             (250 - to_float listing / to_float max_price * 150)
                             (to_float listing / to_float max_price * 150),
                         text) :: cbars)).
  { unfold valuation_bars. rewrite Hsp, Hget. cbn [bind].
    rewrite length_map, Hlb. cbn [bind].
    unfold enumerate. rewrite Hcb. reflexivity. }
  assert (Hclen : length cbars = length (p0 :: prices)).
  { apply (f_equal (@length _)) in Hcfst.
    rewrite !length_map, enumerate_from_length in Hcfst. exact Hcfst. }
  exists max_price. eexists.
  split; [exact Hmaxp|]. split; [exact Hin|]. split; [exact Hall|].
  split; [exact Hbars|].
  split.
  { unfold generate_valuation_chart. simpl get. rewrite Hsales. cbn [bind].
    destruct sales as [|sale sales]; [contradiction|].
    cbn [truthy negb]. rewrite Hmaxp. cbn [bind]. rewrite Hbars.
    reflexivity. }
  split.
  { cbn [length]. rewrite Hclen, Hlen. reflexivity. }
  assert (Hheights :
            List.map (fun b => bar_height (fst b)) cbars
            = List.map (fun p => (to_float p / to_float max_price * 150)%Q)
                       (p0 :: prices)).
  { rewrite <- (map_map fst bar_height), Hcfst, map_map.
    rewrite <- (map_snd_enumerate_from (p0 :: prices) 0) at 2.
    rewrite map_map. reflexivity. }
  split.
  { cbn [List.map fst bar_height]. rewrite Hheights. reflexivity. }
  split.
  { constructor.
    - cbn [fst bar_height bar_y]. split; [|reflexivity].
      apply normalised_height_bound; [exact Hmax|].
      rewrite Forall_forall in Hall. apply Hall.
      apply in_or_app. right. left. reflexivity.
    - rewrite Forall_forall. intros b Hb.
      apply (in_map fst) in Hb. rewrite Hcfst in Hb.
      apply in_map_iff in Hb. destruct Hb as ([i p] & Hbar & Hip).
      rewrite <- Hbar. cbn [fst snd bar_height bar_y]. split; [|reflexivity].
      apply normalised_height_bound; [exact Hmax|].
      rewrite Forall_forall in Hall. apply Hall.
      apply in_or_app. left.
      rewrite <- (map_snd_enumerate_from (p0 :: prices) 0).
      apply (in_map snd) in Hip. exact Hip. }
  do 2 eexists. split; [reflexivity|].
  rewrite Forall_forall. intros b Hb.
  apply (in_map fst) in Hb. rewrite Hcfst in Hb.
  apply in_map_iff in Hb. destruct Hb as ([i p] & Hbar & Hip).
  rewrite <- Hbar. cbn [fst snd bar_x].
  apply listing_bar_leftmost; [lia|].
  eapply enumerate_from_index. exact Hip.
Qed.


End ValuationFacts.


(** ** Price per square foot comparison *)

Lemma comparable_pps_items (sales : list value) (pps : list num) :
  List.map comparable_pps sales = List.map Some pps ->
  mapM (fun c => getitem c "price_per_sqft") sales
  = Ok (List.map of_num pps).
Proof.
  revert pps. induction sales as [|sale sales IH]; intros [|p pps] H;
    try discriminate; [reflexivity|].
  simpl in H. injection H as Hp Hrest.
  simpl. rewrite (IH _ Hrest).
  destruct sale; try discriminate. simpl in *.
  destruct (lookup "price_per_sqft" d) as [v|]; [|discriminate].
  rewrite (as_num_of_num _ _ Hp). reflexivity.
Qed.

Section PriceComparison.

Context {RT : Runtime}.

Lemma price_comparison_computed
    (sales : list value) (pps : list num) (price sqft : num) :
  sales <> [] ->
  List.map comparable_pps sales = List.map Some pps ->
  is_zero sqft = false ->
  generate_price_comparison (PList sales) (of_num price) (of_num sqft)
  = Ok (comparison_document
          (to_float price / to_float sqft) pps
          (to_float (Py.sum pps) / inject_Z (Z.of_nat (length sales)))).
Proof.
  intros Hne Hpps Hz.
  assert (Hlen : length pps = length sales).
  { apply (f_equal (@length _)) in Hpps.
    rewrite !length_map in Hpps. symmetry. exact Hpps. }
  unfold generate_price_comparison.
  destruct sales as [|sale sales]; [contradiction|].
  cbn [truthy negb orb]. rewrite eq_zero_of_num, Hz.
  unfold price_per_sqft, truediv.
  rewrite !number_of_num. cbn [bind]. rewrite Hz. cbn [bind iter].
  rewrite (comparable_pps_items _ _ Hpps). cbn [bind].
  unfold average, truediv. rewrite mapM_number. cbn [bind].
  rewrite length_map, Hlen. cbn [is_zero length].
  rewrite Nat2Z.inj_succ.
  destruct (Z.eqb_spec (Z.succ (Z.of_nat (length sales))) 0) as [H0|_];
    [lia | reflexivity].
Qed.


End PriceComparison.


(** ** The radar chart at concrete ratings *)

(** Claim C2 as stated fails at the empty mapping: the generator returns the
    placeholder there, and the chart of six default scores is a different
    document. *)
Lemma radar_empty_ratings_is_placeholder :
  @generate_radar_chart Sample.runtime (PDict []) = Ok default_radar_chart
  /\ @radar_document Sample.runtime (repeat (PInt 75) 6)
     <> Ok default_radar_chart.
Proof.
  split; [reflexivity|].
  intros H.
  exact (radar_document_not_placeholder _ _ H eq_refl).
Qed.

(** A ratings mapping that only holds the overall rating: present, not
    empty, none of the six categories. *)
Lemma radar_overall_only :
  exists svg,
    @generate_radar_chart Sample.runtime
      (PDict [("overall", PDict [("score", PInt 80)])]) = Ok svg
    /\ @radar_document Sample.runtime (repeat (PInt 75) 6) = Ok svg
    /\ svg <> default_radar_chart.
Proof.
  apply (proj1 (proj2 (proj2
           (@radar_placeholder_when_no_ratings Sample.runtime)))).
  - discriminate.
  - intros key Hkey. simpl in Hkey.
    repeat (destruct Hkey as [<-|Hkey]; [reflexivity|]).
    contradiction.
Defined.


(** ** Numbers outside their domain *)

Section OutOfDomain.

Context {RT : Runtime}.


End OutOfDomain.



(** ** All charts *)

Section WellFormedRecords.

Context {RT : Runtime}.

Lemma investment_gauge_total (n : num) :
  exists svg, generate_investment_gauge (of_num n) = Ok svg.
Proof.
  unfold generate_investment_gauge.
  rewrite score_to_color_of_num, score_to_label_of_num, number_of_num.
  eexists. reflexivity.
Qed.

Lemma radar_chart_total (ratings : dict) :
  ratings_ok (Some (PDict ratings)) ->
  exists svg,
    generate_radar_chart (PDict ratings) = Ok svg
    /\ (ratings = [] -> svg = default_radar_chart).
Proof.
  intros [ns Hns].
  destruct ratings as [|entry ratings].
  - exists default_radar_chart. split; reflexivity.
  - destruct (generate_radar_chart_scores (entry :: ratings) ns) as [_ H];
      [discriminate | exact Hns |].
    eexists. split; [exact H | discriminate].
Qed.

(** The score handed to the gauge: the rating of the investment potential,
    75 without one. *)
Lemma gauge_score_total (ratings : dict) :
  ratings_ok (Some (PDict ratings)) ->
  exists investment_potential n,
    get (PDict ratings) "investment_potential" (PDict [])
    = Ok investment_potential
    /\ get investment_potential "score" (PInt 75) = Ok (of_num n).
Proof.
  intros [ns Hns].
  assert (Hin : In "investment_potential" rating_keys)
    by (unfold rating_keys; simpl; tauto).
  assert (Hs : exists n, category_score ratings "investment_potential"
                         = Some n).
  { apply (in_map (category_score ratings)) in Hin.
    rewrite Hns in Hin. apply in_map_iff in Hin.
    destruct Hin as (n & Hn & _). exists n. symmetry. exact Hn. }
  destruct Hs as [n Hn].
  unfold category_score in Hn. simpl get.
  destruct (lookup "investment_potential" ratings) as [entry|].
  - destruct entry; try discriminate.
    eexists. exists n. split; [reflexivity|]. simpl.
    destruct (lookup "score" d) as [score|].
    + rewrite (as_num_of_num _ _ Hn). reflexivity.
    + inversion Hn. reflexivity.
  - eexists. exists n. split; [reflexivity|].
    inversion Hn. reflexivity.
Qed.

Lemma valuation_chart_total (valuation : dict) :
  comparables_ok valuation ->
  exists svg,
    generate_valuation_chart (PDict valuation) = Ok svg
    /\ (lookup "comparable_sales" valuation = None
        \/ lookup "comparable_sales" valuation = Some (PList []) ->
        svg = default_bar_chart).
Proof.
  unfold comparables_ok.
  destruct (lookup "comparable_sales" valuation) as [sales|] eqn:Hsales.
  - destruct sales as [| | | |[|sale sales]|]; try contradiction.
    + intros _. exists default_bar_chart. split; [|reflexivity].
      unfold generate_valuation_chart. simpl get. rewrite Hsales. reflexivity.
    + intros (prices & pps & listing & Hprices & _ & Hlisting & Hpos).
      destruct (valuation_chart_bars valuation (sale :: sales) prices listing)
        as (max_price & bars & _ & _ & _ & _ & Hchart & _);
        try assumption; [discriminate|].
      eexists. split; [exact Hchart|].
      intros [H|H]; discriminate.
  - intros _. exists default_bar_chart. split; [|reflexivity].
    unfold generate_valuation_chart. simpl get. rewrite Hsales. reflexivity.
Qed.

Lemma price_comparison_total (valuation : dict) (price sqft : num) :
  comparables_ok valuation ->
  exists comparable_sales svg,
    get (PDict valuation) "comparable_sales" (PList []) = Ok comparable_sales
    /\ generate_price_comparison comparable_sales (of_num price) (of_num sqft)
       = Ok svg
    /\ (lookup "comparable_sales" valuation = None
        \/ lookup "comparable_sales" valuation = Some (PList [])
        \/ is_zero sqft = true ->
        svg = default_comparison_chart).
Proof.
  unfold comparables_ok. simpl get.
  destruct (lookup "comparable_sales" valuation) as [sales|] eqn:Hsales.
  - destruct sales as [| | | |[|sale sales]|]; try contradiction.
    + intros _. do 2 eexists. split; [reflexivity|]. split; reflexivity.
    + intros (prices & pps & listing & _ & Hpps & _).
      destruct (is_zero sqft) eqn:Hz.
      * do 2 eexists. split; [reflexivity|]. split; [|reflexivity].
        unfold generate_price_comparison.
        rewrite eq_zero_of_num, Hz, orb_true_r. reflexivity.
      * do 2 eexists. split; [reflexivity|]. split.
        -- apply price_comparison_computed;
             [discriminate | exact Hpps | exact Hz].
        -- intros [H|[H|H]]; discriminate.
  - intros _. do 2 eexists. split; [reflexivity|]. split; reflexivity.
Qed.

Lemma market_trend_field_total (valuation : dict) :
  trend_ok valuation ->
  exists price_trend svg,
    get (PDict valuation) "price_trend" (PStr "Stable") = Ok price_trend
    /\ generate_market_trend price_trend = Ok svg.
Proof.
  unfold trend_ok. simpl get.
  destruct (lookup "price_trend" valuation) as [trend|].
  - destruct trend; try contradiction. intros _.
    do 2 eexists. split; reflexivity.
  - intros _. do 2 eexists. split; reflexivity.
Qed.

Lemma number_field (d : dict) (key : string) (default : Z) :
  number_ok (lookup key d) ->
  exists n, get (PDict d) key (PInt default) = Ok (of_num n)
            /\ (lookup key d = None -> n = NInt default).
Proof.
  unfold number_ok. simpl get.
  destruct (lookup key d) as [v|].
  - intros [n Hn]. exists n. rewrite (as_num_of_num _ _ Hn).
    split; [reflexivity | discriminate].
  - intros _. exists (NInt default). split; reflexivity.
Qed.

(** A section that is present as a mapping, or missing and replaced by the
    empty mapping. *)
Lemma section_field (d : dict) (key : string) (ok : option value -> Prop) :
  (ok (lookup key d) ->
   match lookup key d with
   | None => True
   | Some (PDict _) => True
   | Some _ => False
   end) ->
  ok (lookup key d) ->
  exists section,
    get (PDict d) key (PDict []) = Ok (PDict section)
    /\ (lookup key d = None -> section = [])
    /\ (lookup key d = Some (PDict section) \/ lookup key d = None).
Proof.
  intros Hshape Hok. specialize (Hshape Hok). simpl get.
  destruct (lookup key d) as [v|].
  - destruct v; try contradiction.
    eexists. split; [reflexivity|]. split; [discriminate|].
    left. reflexivity.
  - exists []. split; [reflexivity|]. split; [reflexivity|].
    right. reflexivity.
Qed.


End WellFormedRecords.



Section Orchestrator.

Context {RT : Runtime}.


End Orchestrator.

(** ** Further properties of the generator

    Error and edge behaviour, layout bounds, and how the charts of one
    record relate. *)

(** *** Gauge and trend indicator on values outside their domain *)

Section GaugeAndTrendEdges.

Context {RT : Runtime}.


(** Property X2.  The trend indicator raises [TypeError] exactly when the trend
    is a list or a mapping (the look-up in [trend_colors] cannot hash it).
    Every other value that is not one of the four trend names, [None] and
    numbers included, is drawn with the neutral colour and the zigzag, its
    text being [str] of the value. *)
Theorem market_trend_other_values (trend : value) :
  ((exists l, trend = PList l) \/ (exists d, trend = PDict d) <->
   generate_market_trend trend = Raise TypeError)
  /\ (forall text,
        str_key trend = Some text ->
        ~ In trend [PStr "Rising"; PStr "Stable"; PStr "Declining";
                    PStr "Volatile"] ->
        generate_market_trend trend
        = Ok (trend_document "#a0aec0" text
                             "M60,55 L68,65 L75,45 L82,65 L90,55"))
  /\ generate_market_trend PNone
     = Ok (trend_document "#a0aec0" "None"
                          "M60,55 L68,65 L75,45 L82,65 L90,55").
Proof.
  split; [|split; [|reflexivity]].
  - split.
    + intros [[l ->]|[d ->]]; reflexivity.
    + destruct trend; unfold generate_market_trend; simpl;
        try discriminate; intros _; [left|right]; eexists; reflexivity.
  - intros text Htext Hnot.
    unfold generate_market_trend. rewrite Htext.
    destruct trend; try discriminate; try reflexivity.
    simpl in Htext. injection Htext as ->.
    assert (HR : text <> "Rising") by (intros ->; apply Hnot; simpl; tauto).
    assert (HS : text <> "Stable") by (intros ->; apply Hnot; simpl; tauto).
    assert (HD : text <> "Declining")
      by (intros ->; apply Hnot; simpl; tauto).
    assert (HV : text <> "Volatile")
      by (intros ->; apply Hnot; simpl; tauto).
    unfold trend_color, trend_icon, eq_str, trend_colors, assoc.
    rewrite (eqb_neq_false _ _ HR), (eqb_neq_false _ _ HD),
            (eqb_neq_false _ _ HS), (eqb_neq_false _ _ HV).
    apply String.eqb_neq in HR, HS, HD.
    rewrite HR, HS, HD. reflexivity.
Qed.

End GaugeAndTrendEdges.

(** Property X3.  The scraper's [score_to_color] and [score_to_label] and the
    generator's agree on every value: the same colour and the same label for
    every number, the same [TypeError] for everything else.  With one shared
    palette a rating is coloured in the report as it is in the charts. *)
Theorem scraper_classification_agrees (score : value) :
  EnhancedPropertyScraper.score_to_color score = score_to_color score
  /\ EnhancedPropertyScraper.score_to_label score = score_to_label score
  /\ (forall n,
        as_num score = Some n ->
        exists color label,
          EnhancedPropertyScraper.score_to_color score = Ok color
          /\ score_to_color score = Ok color
          /\ EnhancedPropertyScraper.score_to_label score = Ok label
          /\ score_to_label score = Ok label)
  /\ (as_num score = None ->
      EnhancedPropertyScraper.score_to_color score = Raise TypeError
      /\ score_to_color score = Raise TypeError
      /\ EnhancedPropertyScraper.score_to_label score = Raise TypeError
      /\ score_to_label score = Raise TypeError).
Proof.
  split; [reflexivity|]. split; [reflexivity|]. split.
  - intros n Hn. rewrite (as_num_of_num _ _ Hn).
    do 2 eexists.
    split; [apply score_to_color_of_num|].
    split; [apply score_to_color_of_num|].
    split; apply score_to_label_of_num.
  - destruct score; simpl; intros H; try discriminate; repeat split.
Qed.

(** *** Radar chart: errors, the keys it reads, the canvas *)

Lemma mapM_raise {A B : Type} (f : A -> result B) (e : exn) (l : list A) :
  (forall x, In x l -> (exists y, f x = Ok y) \/ f x = Raise e) ->
  Exists (fun x => f x = Raise e) l ->
  mapM f l = Raise e.
Proof.
  induction l as [|x l IH]; intros Hall Hex; [inversion Hex|].
  simpl. destruct (Hall x (or_introl eq_refl)) as [[y Hy]|Hx].
  - rewrite Hy. simpl. rewrite IH; [reflexivity| |].
    + intros z Hz. apply Hall. right. exact Hz.
    + inversion Hex as [? ? Hx|? ? Hrest]; subst; [|exact Hrest].
      rewrite Hy in Hx. discriminate.
  - rewrite Hx. reflexivity.
Qed.

Lemma map_Some_exists {A B : Type} (f : A -> option B) (l : list A) :
  Forall (fun x => f x <> None) l ->
  exists ys, List.map f l = List.map Some ys.
Proof.
  induction 1 as [|x l Hx _ [ys IH]]; [exists []; reflexivity|].
  destruct (f x) as [y|] eqn:Hy; [|contradiction].
  exists (y :: ys). simpl. rewrite Hy, IH. reflexivity.
Qed.

Lemma enumerate_from_In {A : Type} (l : list A) (k : Z) (x : A) :
  In x l -> exists i, In (i, x) (enumerate_from k l).
Proof.
  revert k. induction l as [|y l IH]; intros k; simpl; [tauto|].
  intros [->|H].
  - exists k. left. reflexivity.
  - destruct (IH (k + 1) H) as [i Hi]. exists i. right. exact Hi.
Qed.

Section RadarEdges.

Context {RT : Runtime}.

Lemma rating_score_field (d : dict) (key : string) :
  (not_a_mapping d key -> rating_score (PDict d) key = Raise AttributeError)
  /\ (~ not_a_mapping d key ->
      rating_score (PDict d) key = Ok (score_field d key)).
Proof.
  unfold not_a_mapping, rating_score, score_field. simpl.
  destruct (lookup key d) as [entry|]; simpl.
  - destruct entry; simpl; split; intros H; try reflexivity;
      try contradiction; try (exfalso; apply H; exact I).
    destruct (lookup "score" d0); reflexivity.
  - split; [contradiction | reflexivity].
Qed.

Lemma category_score_field (d : dict) (key : string) :
  ~ not_a_mapping d key ->
  category_score d key = as_num (score_field d key).
Proof.
  unfold not_a_mapping, category_score, score_field.
  destruct (lookup key d) as [entry|]; [|reflexivity].
  destruct entry; intros H; try (exfalso; apply H; exact I).
  destruct (lookup "score" d0); reflexivity.
Qed.

Lemma collect_scores_fields (d : dict) :
  Forall (fun key => ~ not_a_mapping d key) rating_keys ->
  collect_scores (PDict d) = Ok (List.map (score_field d) rating_keys).
Proof.
  intros Hall. unfold collect_scores, rating_keys.
  rewrite map_map. apply mapM_ok.
  intros [key idx] Hin. apply rating_score_field.
  rewrite Forall_forall in Hall. apply Hall.
  unfold rating_keys. apply (in_map fst) in Hin. exact Hin.
Qed.


(** Property X5.  The radar chart of a ratings mapping that is not empty is
    decided by what the six category keys are bound to: two such mappings
    that agree on the six keys give the same result, chart or exception.  In
    particular entries under other keys, such as the overall rating the
    scraper adds, change nothing. *)
Theorem radar_chart_reads_six_keys (d d' : dict) :
  d <> [] -> d' <> [] ->
  (forall key, In key rating_keys -> lookup key d = lookup key d') ->
  generate_radar_chart (PDict d) = generate_radar_chart (PDict d')
  /\ (forall other : dict,
        (forall key, In key rating_keys -> lookup key other = None) ->
        generate_radar_chart (PDict (d ++ other))
        = generate_radar_chart (PDict d)).
Proof.
  assert (Hsame : forall a b : dict,
             a <> [] -> b <> [] ->
             (forall key, In key rating_keys -> lookup key a = lookup key b) ->
             generate_radar_chart (PDict a) = generate_radar_chart (PDict b)).
  { intros a b Ha Hb Hl. unfold generate_radar_chart.
    destruct a as [|ea a]; [contradiction|].
    destruct b as [|eb b]; [contradiction|].
    cbn [truthy negb].
    assert (Hc : collect_scores (PDict (ea :: a))
                 = collect_scores (PDict (eb :: b))).
    { unfold collect_scores, Radar.rating_map. cbn [mapM fst].
      rewrite !(rating_score_lookup (ea :: a) (eb :: b))
        by (apply Hl; unfold rating_keys; simpl; tauto).
      reflexivity. }
    rewrite Hc. reflexivity. }
  intros Hne Hne' Hl. split; [apply Hsame; assumption|].
  intros other Hother. apply Hsame.
  - destruct d; [contradiction | discriminate].
  - exact Hne.
  - intros key Hin. specialize (Hother key Hin).
    clear - Hother. induction d as [|[k v] d IH]; simpl; [exact Hother|].
    destruct (String.eqb k key); [reflexivity | exact IH].
Qed.

Lemma polar_box (r angle : Q) :
  (0 <= r)%Q ->
  (-1 <= math_cos angle <= 1)%Q -> (-1 <= math_sin angle <= 1)%Q ->
  (200 - r <= fst (polar r angle) <= 200 + r)%Q
  /\ (150 - r <= snd (polar r angle) <= 150 + r)%Q.
Proof.
  intros Hr [Hc1 Hc2] [Hs1 Hs2]. unfold polar. cbn [fst snd].
  change (inject_Z Radar.center_x) with 200%Q.
  change (inject_Z Radar.center_y) with 150%Q.
  assert (Hb : forall c : Q, (-1 <= c)%Q -> (c <= 1)%Q ->
                             (- r <= r * c)%Q /\ (r * c <= r)%Q).
  { intros c H1 H2. split; nra. }
  destruct (Hb _ Hc1 Hc2) as [Hx1 Hx2].
  destruct (Hb _ Hs1 Hs2) as [Hy1 Hy2].
  repeat split; lra.
Qed.

(** Property X6.  Wherever the runtime's cosine and sine of an axis angle lie
    between -1 and 1, everything the radar chart places on that axis lies on
    the 400 by 300 canvas: the end of the axis line (110 from the centre),
    the anchor of the category label (130 from the centre) and, for a score
    between 0 and 100, the vertex with its marker (inside the box of the
    outer circle) and the anchor of the score label (15 further out). *)
Theorem radar_chart_inside_canvas (i : Z) (category : string) (n : num) :
  let angle := axis_angle i 6 in
  let on_canvas (p : Q * Q) :=
    (0 <= fst p <= 400)%Q /\ (0 <= snd p <= 300)%Q in
  (-1 <= math_cos angle <= 1)%Q ->
  (-1 <= math_sin angle <= 1)%Q ->
  (0 <= to_float n <= 100)%Q ->
  on_canvas (polar 110 angle)
  /\ on_canvas (polar 130 angle)
  /\ on_canvas (data_point 6 i n)
  /\ (90 <= fst (data_point 6 i n) <= 310)%Q
  /\ (40 <= snd (data_point 6 i n) <= 260)%Q
  /\ on_canvas (polar (score_radius n + 15) angle)
  /\ (exists anchor,
        category_axis 6 (i, category)
        = lit "<line x1='" ++ str_int 200 ++ lit "' y1='" ++ str_int 150
          ++ lit "' x2='" ++ float_str (fst (polar 110 angle))
          ++ lit "' y2='" ++ float_str (snd (polar 110 angle))
          ++ lit "' class='axis-line'/>"
          ++ lit "<text x='" ++ float_str (fst (polar 130 angle))
          ++ lit "' y='" ++ float_str (snd (polar 130 angle))
          ++ lit "' text-anchor='" ++ anchor
          ++ lit "' class='category-label'>" ++ category ++ lit "</text>")
  /\ data_marker 6 i n
     = lit "<circle cx='" ++ float_str (fst (data_point 6 i n))
       ++ lit "' cy='" ++ float_str (snd (data_point 6 i n))
       ++ lit "' r='4' class='data-point'/>"
       ++ lit "<text x='"
       ++ float_str (fst (polar (score_radius n + 15) angle))
       ++ lit "' y='"
       ++ float_str (snd (polar (score_radius n + 15) angle))
       ++ lit "' text-anchor='middle' class='score-label'>"
       ++ str_num n ++ lit "</text>".
Proof.
  intros angle on_canvas Hcos Hsin [Hn0 Hn100]. subst angle.
  set (angle := axis_angle i 6) in *.
  assert (Hr : (0 <= score_radius n <= 110)%Q).
  { unfold score_radius. change (inject_Z Radar.radius) with 110%Q.
    setoid_replace (110 * (to_float n / 100))%Q
      with (to_float n * (11 # 10))%Q by field.
    split; lra. }
  assert (Hbox : forall r, (0 <= r)%Q -> (r <= 130)%Q ->
                           on_canvas (polar r angle)).
  { intros r H0 H1. destruct (polar_box r angle H0 Hcos Hsin) as [Hx Hy].
    unfold on_canvas. split; lra. }
  destruct (polar_box (score_radius n) angle (proj1 Hr) Hcos Hsin)
    as [Hx Hy].
  split; [apply Hbox; lra|].
  split; [apply Hbox; lra|].
  split; [apply Hbox; lra|].
  change (data_point 6 i n) with (polar (score_radius n) angle).
  split; [lra|]. split; [lra|].
  split; [apply Hbox; lra|].
  split; [eexists|]; reflexivity.
Qed.

End RadarEdges.


(** The ratings of the self-test with the scraper's overall rating added. *)
Lemma radar_chart_ignores_overall :
  @generate_radar_chart Sample.runtime
    (PDict (Sample.test_ratings
            ++ [("overall", PDict [("score", PInt 85)])]))
  = @generate_radar_chart Sample.runtime (PDict Sample.test_ratings).
Proof.
  apply (proj2 (@radar_chart_reads_six_keys Sample.runtime
                  Sample.test_ratings Sample.test_ratings
                  ltac:(discriminate) ltac:(discriminate)
                  (fun _ _ => eq_refl))).
  intros key Hkey. simpl in Hkey.
  repeat (destruct Hkey as [<-|Hkey]; [reflexivity|]).
  contradiction.
Defined.

(** The safety axis of the self-test on the sample runtime. *)
Lemma radar_chart_inside_canvas_example :
  (90 <= fst (@data_point Sample.runtime 6 1 (NInt 92)) <= 310)%Q
  /\ (40 <= snd (@data_point Sample.runtime 6 1 (NInt 92)) <= 260)%Q.
Proof.
  destruct (@radar_chart_inside_canvas Sample.runtime 1 "Safety" (NInt 92))
    as (_ & _ & _ & Hx & Hy & _).
  - vm_compute. split; discriminate.
  - vm_compute. split; discriminate.
  - vm_compute. split; discriminate.
  - split; [exact Hx | exact Hy].
Defined.

(** *** Valuation chart: division by zero, layout, failing entries *)

Lemma is_zero_spec (n : num) : is_zero n = true <-> (to_float n == 0)%Q.
Proof.
  destruct n as [z|q]; simpl.
  - rewrite Z.eqb_eq. split; [intros ->; reflexivity|].
    intros H. unfold Qeq in H. simpl in H. lia.
  - apply Qeq_bool_iff.
Qed.

Lemma mapM_first_raise {A B : Type} (f : A -> result B) (e : exn)
    (good : list A) (bad : A) (rest : list A) :
  Forall (fun x => exists y, f x = Ok y) good ->
  f bad = Raise e ->
  mapM f (good ++ bad :: rest) = Raise e.
Proof.
  intros Hgood Hbad. induction Hgood as [|x good [y Hy] _ IH]; simpl.
  - rewrite Hbad. reflexivity.
  - rewrite Hy. simpl. rewrite IH. reflexivity.
Qed.

Lemma nth_error_enumerate_from {A : Type} (l : list A) (k : Z) (j : nat)
    (ix : Z * A) :
  nth_error (enumerate_from k l) j = Some ix -> fst ix = k + Z.of_nat j.
Proof.
  revert k j. induction l as [|x l IH]; intros k [|j]; simpl;
    try discriminate.
  - intros H. injection H as <-. simpl. lia.
  - intros H. apply IH in H. lia.
Qed.

Section ValuationEdges.

Context {RT : Runtime}.

(** The step from one bar to the next. *)
Lemma bar_spacing_step (count : Z) :
  0 <= count ->
  (bar_spacing count + 40 == 420 / inject_Z (count + 2))%Q.
Proof.
  intros Hc. unfold bar_spacing, Valuation.svg_width, Valuation.padding,
    Valuation.bar_width.
  replace (500 - 2 * 60 - (count + 1) * 40) with (420 - 40 * (count + 2))
    by lia.
  unfold Z.sub. rewrite inject_Z_plus, inject_Z_opp, inject_Z_mult.
  assert (Hb : (0 < inject_Z (count + 2))%Q).
  { change 0%Q with (inject_Z 0). rewrite <- Zlt_Qlt. lia. }
  set (b := inject_Z (count + 2)) in *.
  change (inject_Z 420) with 420%Q. change (inject_Z 40) with 40%Q.
  field. intros H0. rewrite H0 in Hb. apply Qlt_irrefl in Hb. exact Hb.
Qed.

(** What the valuation chart does for a non-empty list of comparable sales
    with numeric prices: the greatest price, and either the division by zero
    or the bars. *)
Lemma valuation_chart_layout
    (d : dict) (sales : list value) (prices : list num) (listing : num) :
  lookup "comparable_sales" d = Some (PList sales) ->
  sales <> [] ->
  List.map comparable_price sales = List.map Some prices ->
  listing_price d = Some listing ->
  exists max_price : num,
    valuation_max_price (PDict d) (PList sales) = Ok max_price
    /\ In max_price (all_prices prices listing)
    /\ Forall (fun p => (to_float p <= to_float max_price)%Q)
              (all_prices prices listing)
    /\ (is_zero max_price = true ->
        generate_valuation_chart (PDict d) = Raise ZeroDivisionError)
    /\ (is_zero max_price = false ->
        exists bars : list (bar * string),
          valuation_bars (PDict d) (PList sales) max_price = Ok bars
          /\ generate_valuation_chart (PDict d)
             = Ok (valuation_header
                   ++ String.concat EmptyString
                        (List.map (y_axis_label max_price)
                                  [0.25; 0.5; 0.75; 1.0]%Q)
                   ++ String.concat EmptyString (List.map snd bars)
                   ++ "</svg>")
          /\ List.map fst bars
             = Bar (60 + bar_spacing (Z.of_nat (length sales)))
                   (250 - to_float listing / to_float max_price * 150)
                   (to_float listing / to_float max_price * 150)
               :: List.map
                    (fun ip =>
                       Bar (60 + inject_Z (fst ip + 2)
                                 * bar_spacing (Z.of_nat (length sales))
                            + inject_Z ((fst ip + 1) * 40))
                           (250 - to_float (snd ip) / to_float max_price * 150)
                           (to_float (snd ip) / to_float max_price * 150))
                    (enumerate prices)).
Proof.
  intros Hsales Hne Hprices Hlisting.
  pose proof (sale_prices_comparable _ _ Hprices) as Hsp.
  pose proof (listing_price_get _ _ Hlisting) as Hget.
  assert (Hlen : length prices = length sales).
  { apply (f_equal (@length _)) in Hprices.
    rewrite !length_map in Hprices. symmetry. exact Hprices. }
  destruct prices as [|p0 prices];
    [destruct sales; [contradiction | discriminate]|].
  set (max_price := max_num p0 (prices ++ [listing])).
  destruct (max_num_spec (prices ++ [listing]) p0) as [Hin Hall].
  fold max_price in Hin, Hall.
  assert (Hmaxp : valuation_max_price (PDict d) (PList sales) = Ok max_price).
  { unfold valuation_max_price. rewrite Hsp, Hget. cbn [bind].
    change [of_num listing] with (List.map of_num [listing]).
    rewrite <- map_app. apply max_of_numbers. }
  assert (Hgen : generate_valuation_chart (PDict d)
                 = (bars <- valuation_bars (PDict d) (PList sales) max_price ;;
                    Ok (valuation_header
                        ++ String.concat EmptyString
                             (List.map (y_axis_label max_price)
                                       [0.25; 0.5; 0.75; 1.0]%Q)
                        ++ String.concat EmptyString (List.map snd bars)
                        ++ "</svg>"))).
  { unfold generate_valuation_chart. simpl get. rewrite Hsales. cbn [bind].
    destruct sales as [|sale sales]; [contradiction|].
    cbn [truthy negb]. rewrite Hmaxp. reflexivity. }
  exists max_price.
  split; [exact Hmaxp|]. split; [exact Hin|]. split; [exact Hall|].
  split.
  - intros Hz. rewrite Hgen. unfold valuation_bars.
    rewrite Hsp, Hget. cbn [bind].
    unfold listing_bar, price_height, truediv.
    rewrite number_of_num. cbn [bind]. rewrite Hz. reflexivity.
  - intros Hz.
    destruct (listing_bar_number
                (bar_spacing (Z.of_nat (length (p0 :: prices))))
                max_price listing Hz) as [text Hlb].
    destruct (comparable_bars_numbers
                (bar_spacing (Z.of_nat (length (p0 :: prices))))
                max_price (p0 :: prices) 0 Hz) as (cbars & Hcb & Hcfst).
    assert (Hbars : valuation_bars (PDict d) (PList sales) max_price
                    = Ok ((Bar (60 + bar_spacing
                                       (Z.of_nat (length (p0 :: prices))))
                               (250 - to_float listing
                                      / to_float max_price * 150)
                               (to_float listing / to_float max_price * 150),
                           text) :: cbars)).
    { unfold valuation_bars. rewrite Hsp, Hget. cbn [bind].
      rewrite length_map, Hlb. cbn [bind].
      unfold enumerate. rewrite Hcb. reflexivity. }
    eexists. split; [exact Hbars|].
    split; [rewrite Hgen, Hbars; reflexivity|].
    cbn [List.map fst]. rewrite Hcfst, <- Hlen. reflexivity.
Qed.





(** Property X11.  The valuation chart reads the price of every comparable sale
    before it draws anything, so the first entry without one decides the
    exception: [KeyError] when that entry is a mapping that has no price,
    [TypeError] when it is not a mapping; entries after it, the listing price
    and the values of the prices before it make no difference. *)
Theorem valuation_first_bad_comparable
    (d : dict) (good : list value) (bad : value) (rest : list value) :
  lookup "comparable_sales" d = Some (PList (good ++ bad :: rest)) ->
  Forall (has_field "price") good ->
  ((exists fields, bad = PDict fields /\ lookup "price" fields = None) ->
   generate_valuation_chart (PDict d) = Raise KeyError)
  /\ ((forall fields, bad <> PDict fields) ->
      generate_valuation_chart (PDict d) = Raise TypeError).
Proof.
  intros Hsales Hgood.
  assert (Hgen : forall e,
             getitem bad "price" = Raise e ->
             generate_valuation_chart (PDict d) = Raise e).
  { intros e Hbad. unfold generate_valuation_chart. simpl get.
    rewrite Hsales. cbn [bind].
    assert (Ht : truthy (PList (good ++ bad :: rest)) = true)
      by (destruct good; reflexivity).
    rewrite Ht. cbn [negb].
    unfold valuation_max_price, sale_prices. cbn [iter bind].
    rewrite (mapM_first_raise _ e good bad rest); [reflexivity| |exact Hbad].
    eapply Forall_impl; [|exact Hgood].
    intros sale Hsale. destruct sale; try contradiction. simpl in *.
    destruct (lookup "price" d0) as [v|]; [eexists; reflexivity|].
    exfalso. apply Hsale. reflexivity. }
  split.
  - intros (fields & -> & Hnone). apply Hgen. simpl. rewrite Hnone.
    reflexivity.
  - intros Hnot. apply Hgen.
    destruct bad; try reflexivity. exfalso. exact (Hnot _ eq_refl).
Qed.

End ValuationEdges.





(** A priced sale, then one that only has a price per square foot, then an
    entry that is not a mapping: the second one decides. *)
Lemma valuation_first_bad_comparable_example :
  @generate_valuation_chart Sample.runtime
    (PDict [("listing_price", PInt 450000);
            ("comparable_sales",
             PList [PDict [("price", PInt 425000)];
                    PDict [("price_per_sqft", PInt 225)];
                    PNone])])
  = Raise KeyError.
Proof.
  apply (proj1 (@valuation_first_bad_comparable Sample.runtime
                  [("listing_price", PInt 450000);
                   ("comparable_sales",
                    PList [PDict [("price", PInt 425000)];
                           PDict [("price_per_sqft", PInt 225)];
                           PNone])]
                  [PDict [("price", PInt 425000)]]
                  (PDict [("price_per_sqft", PInt 225)])
                  [PNone] eq_refl
                  ltac:(repeat constructor; discriminate))).
  eexists. split; reflexivity.
Defined.

(** *** Price comparison: exceptions, the average line, the canvas *)

Lemma sum_bounds (lo hi : Q) (l : list num) :
  Forall (fun p => (lo <= to_float p <= hi)%Q) l ->
  (lo * inject_Z (Z.of_nat (length l))
   <= fold_right (fun n acc => to_float n + acc) 0 l
   <= hi * inject_Z (Z.of_nat (length l)))%Q.
Proof.
  induction 1 as [|p l [Hlo Hhi] _ [IHlo IHhi]].
  - simpl. change (inject_Z 0) with 0%Q. split; lra.
  - cbn [length fold_right]. rewrite Nat2Z.inj_succ.
    unfold Z.succ. rewrite inject_Z_plus. change (inject_Z 1) with 1%Q.
    set (k := inject_Z (Z.of_nat (length l))) in *.
    set (t := fold_right (fun n acc => (to_float n + acc)%Q) 0%Q l) in *.
    split; lra.
Qed.

Section PriceComparisonEdges.

Context {RT : Runtime}.




End PriceComparisonEdges.



(** *** All charts: the sections read, and what a section must be *)

Lemma get_dict (d : dict) (key : string) (default : value) :
  get (PDict d) key default
  = Ok (match lookup key d with Some x => x | None => default end).
Proof. simpl. destruct (lookup key d); reflexivity. Qed.

Lemma get_not_mapping (v : value) (key : string) (default : value) :
  (forall d, v <> PDict d) -> get v key default = Raise AttributeError.
Proof.
  intros H. destruct v; try reflexivity. exfalso. apply (H d). reflexivity.
Qed.

Lemma mapM_numbers_inv {B : Type} (f : Z * value -> result B)
    (scores : list value) :
  (forall i v y, f (i, v) = Ok y -> as_num v <> None) ->
  forall (k : Z) (ys : list B),
    mapM f (enumerate_from k scores) = Ok ys ->
    Forall (fun v => as_num v <> None) scores.
Proof.
  intros Hf. induction scores as [|v scores IH]; intros k ys H.
  - constructor.
  - cbn [enumerate_from mapM] in H.
    destruct (f (k, v)) as [y|e] eqn:Hy; [|discriminate]. cbn [bind] in H.
    destruct (mapM f (enumerate_from (k + 1) scores)) as [ys'|e] eqn:Hys;
      [|discriminate].
    constructor; [exact (Hf _ _ _ Hy) | exact (IH _ _ Hys)].
Qed.

Section AllChartsEdges.

Context {RT : Runtime}.

Lemma rating_score_inv (d : dict) (key : string) (v : value) (n : num) :
  rating_score (PDict d) key = Ok v -> as_num v = Some n ->
  category_score d key = Some n.
Proof.
  unfold rating_score, category_score. simpl.
  destruct (lookup key d) as [entry|]; simpl.
  - destruct entry; try discriminate. simpl.
    destruct (lookup "score" d0) as [score|]; intros H Hn;
      inversion H; subst; exact Hn.
  - intros H Hn. inversion H; subst. exact Hn.
Qed.

Lemma collect_scores_inv (d : dict) (keys : list (string * Z))
    (scores : list value) :
  mapM (fun ki => rating_score (PDict d) (fst ki)) keys = Ok scores ->
  Forall (fun v => as_num v <> None) scores ->
  exists ns,
    List.map (category_score d) (List.map fst keys) = List.map Some ns.
Proof.
  revert scores. induction keys as [|ki keys IH]; intros scores H Hnum.
  - exists []. reflexivity.
  - cbn [mapM] in H.
    destruct (rating_score (PDict d) (fst ki)) as [v|e] eqn:Hv;
      [|discriminate].
    cbn [bind] in H.
    destruct (mapM (fun ki => rating_score (PDict d) (fst ki)) keys)
      as [vs|e] eqn:Hvs; [|discriminate].
    cbn [bind] in H. inversion H; subst scores.
    inversion Hnum as [|? ? Hhead Htail]; subst.
    destruct (IH vs eq_refl Htail) as [ns Hns].
    destruct (as_num v) as [n|] eqn:Hn; [|contradiction].
    exists (n :: ns). cbn [List.map]. rewrite Hns.
    rewrite (rating_score_inv _ _ _ _ Hv Hn). reflexivity.
Qed.

Lemma data_round_number (count i : Z) (v : value)
    (round : (Q * Q) * string) :
  data_round count (i, v) = Ok round -> as_num v <> None.
Proof.
  unfold data_round, number.
  destruct (as_num v); [discriminate | intros H; discriminate H].
Qed.

(** A radar chart that was drawn had six numeric scores to draw. *)
Lemma radar_chart_drawn (d : dict) (svg : string) :
  d <> [] ->
  generate_radar_chart (PDict d) = Ok svg ->
  exists ns, List.map (category_score d) rating_keys = List.map Some ns.
Proof.
  intros Hne H. unfold generate_radar_chart in H.
  assert (Ht : truthy (PDict d) = true) by (destruct d; [contradiction|reflexivity]).
  rewrite Ht in H. cbn [negb] in H.
  destruct (collect_scores (PDict d)) as [scores|e] eqn:Hscores;
    [|discriminate].
  cbn [bind] in H. unfold radar_document in H.
  destruct (data_rounds scores) as [rounds|e] eqn:Hrounds; [|discriminate].
  unfold data_rounds, enumerate in Hrounds.
  apply (collect_scores_inv d Radar.rating_map scores Hscores).
  apply (mapM_numbers_inv (data_round (Z.of_nat (length scores))) scores)
    with (k := 0) (ys := rounds).
  - intros i v y. apply data_round_number.
  - exact Hrounds.
Qed.

(** The score the orchestrator hands to the gauge is the score the radar
    chart reads for the same category. *)
Lemma gauge_score_category (d : dict) (key : string) (n : num) :
  category_score d key = Some n ->
  (entry <- get (PDict d) key (PDict []) ;; get entry "score" (PInt 75))
  = Ok (of_num n).
Proof.
  unfold category_score. rewrite get_dict. cbn [bind].
  destruct (lookup key d) as [entry|].
  - destruct entry; try discriminate. rewrite get_dict.
    destruct (lookup "score" d0) as [score|]; intros H.
    + rewrite (as_num_of_num _ _ H). reflexivity.
    + inversion H. reflexivity.
  - intros H. inversion H. reflexivity.
Qed.

(** Property X15.  The orchestrator reads four fields of the property record and
    no other: two records that agree on the ratings, the valuation, the price
    and the size give the same result, charts or exception, whatever else
    (address, rooms, images, public data) they hold. *)
Theorem all_charts_read_four_fields (d d' : dict) :
  (forall key, In key ["ratings"; "valuation"; "price"; "sqft"] ->
               lookup key d = lookup key d') ->
  generate_all_charts (PDict d) = generate_all_charts (PDict d').
Proof.
  intros H. unfold generate_all_charts. rewrite !get_dict.
  rewrite (H "ratings"), (H "valuation"), (H "price"), (H "sqft")
    by (simpl; tauto).
  reflexivity.
Qed.

(** Property X16.  The orchestrator checks the shape of nothing it reads.  A
    property record that is not a mapping raises [AttributeError] at the
    first field read; and when the ratings or the valuation section is there
    but is not a mapping (the JSON null, a list, text, a number), the
    orchestrator returns no chart at all: it raises, at the latest when it
    reads the investment score for the gauge, after the other four charts
    were drawn. *)
Theorem all_charts_sections_must_be_mappings :
  (forall property_data : value,
      (forall d, property_data <> PDict d) ->
      generate_all_charts property_data = Raise AttributeError)
  /\ (forall (d : dict) (key : string) (section : value),
        key = "ratings" \/ key = "valuation" ->
        lookup key d = Some section ->
        (forall s, section <> PDict s) ->
        exists e, generate_all_charts (PDict d) = Raise e).
Proof.
  split.
  - intros property_data H. unfold generate_all_charts.
    rewrite (get_not_mapping _ _ _ H). reflexivity.
  - intros d key section Hkey Hsection Hshape.
    unfold generate_all_charts. rewrite !get_dict.
    destruct Hkey as [-> | ->]; rewrite Hsection; cbn [bind].
    + destruct (generate_radar_chart section); cbn [bind];
        [|eexists; reflexivity].
      destruct (generate_valuation_chart _); cbn [bind];
        [|eexists; reflexivity].
      destruct (get _ "comparable_sales" _); cbn [bind];
        [|eexists; reflexivity].
      destruct (generate_price_comparison _ _ _); cbn [bind];
        [|eexists; reflexivity].
      destruct (get _ "price_trend" _); cbn [bind];
        [|eexists; reflexivity].
      destruct (generate_market_trend _); cbn [bind];
        [|eexists; reflexivity].
      rewrite (get_not_mapping _ _ _ Hshape). eexists. reflexivity.
    + destruct (generate_radar_chart _); cbn [bind];
        [|eexists; reflexivity].
      unfold generate_valuation_chart.
      rewrite (get_not_mapping _ _ _ Hshape). eexists. reflexivity.
Qed.

(** Property X17.  When the orchestrator returns its charts for a record whose
    ratings are a mapping that is not empty, the radar chart was drawn from
    six numeric category scores, and the gauge shows the fifth of them, the
    investment potential: the same number stands at the radar's fifth
    vertex and in the middle of the gauge. *)
Theorem all_charts_gauge_shows_radar_score
    (d ratings : dict) (charts : list (string * string)) :
  lookup "ratings" d = Some (PDict ratings) ->
  ratings <> [] ->
  generate_all_charts (PDict d) = Ok charts ->
  exists (ns : list num) (n : num) (gauge : string),
    List.map (category_score ratings) rating_keys = List.map Some ns
    /\ nth_error ns 4 = Some n
    /\ assoc "ratings_radar" charts
       = Some (radar_header
               ++ radar_axes
               ++ String.concat EmptyString
                    (List.map (fun '(i, n) => data_marker 6 i n)
                              (enumerate ns))
               ++ polygon_element
                    (List.map (fun '(i, n) => data_point 6 i n)
                              (enumerate ns))
               ++ "</svg>")
    /\ generate_investment_gauge (of_num n) = Ok gauge
    /\ assoc "investment_gauge" charts = Some gauge.
Proof.
  intros Hratings Hne H.
  unfold generate_all_charts in H. rewrite !get_dict, Hratings in H.
  cbn [bind] in H.
  destruct (generate_radar_chart (PDict ratings)) as [radar|e] eqn:Hradar;
    [|discriminate].
  cbn [bind] in H.
  destruct (radar_chart_drawn ratings radar Hne Hradar) as [ns Hns].
  destruct (generate_radar_chart_scores ratings ns Hne Hns) as [_ Hdoc].
  assert (Hn : exists n, nth_error ns 4 = Some n
                         /\ category_score ratings "investment_potential"
                            = Some n).
  { unfold rating_keys, Radar.rating_map in Hns. cbn [List.map fst] in Hns.
    destruct ns as [|n0 [|n1 [|n2 [|n3 [|n4 ns]]]]]; try discriminate.
    exists n4. split; [reflexivity|].
    injection Hns as _ _ _ _ H4 _. exact H4. }
  destruct Hn as (n & Hnth & Hn).
  destruct (generate_valuation_chart _) as [bars|e]; [|discriminate].
  cbn [bind] in H.
  destruct (get _ "comparable_sales" _) as [sales|e]; [|discriminate].
  cbn [bind] in H.
  destruct (generate_price_comparison _ _ _) as [comparison|e];
    [|discriminate].
  cbn [bind] in H.
  destruct (get _ "price_trend" _) as [trend|e]; [|discriminate].
  cbn [bind] in H.
  destruct (generate_market_trend _) as [indicator|e]; [|discriminate].
  cbn [bind] in H.
  pose proof (gauge_score_category ratings "investment_potential" n Hn)
    as Hscore.
  rewrite get_dict in Hscore. cbn [bind] in Hscore.
  rewrite get_dict in H. cbn [bind] in H.
  rewrite Hscore in H. cbn [bind] in H.
  destruct (investment_gauge_total n) as [gauge Hgauge].
  rewrite Hgauge in H. cbn [bind] in H.
  inversion H; subst charts.
  exists ns, n, gauge.
  split; [exact Hns|]. split; [exact Hnth|].
  split; [transitivity (Some radar); [reflexivity | f_equal; congruence]|].
  split; [exact Hgauge | reflexivity].
Qed.

End AllChartsEdges.

(** The record of the self-test beside one that also holds an address and a
    number of rooms. *)
Lemma all_charts_ignore_address :
  @generate_all_charts Sample.runtime
    (PDict (("address", PStr "123 Main St") :: ("beds", PInt 3)
            :: Sample.test_record))
  = @generate_all_charts Sample.runtime (PDict Sample.test_record).
Proof.
  apply (@all_charts_read_four_fields Sample.runtime).
  intros key [<-|[<-|[<-|[<-|[]]]]]; reflexivity.
Defined.

(** A record whose ratings are the JSON null. *)
Lemma all_charts_null_ratings :
  exists e,
    @generate_all_charts Sample.runtime
      (PDict [("ratings", PNone); ("valuation", PDict Sample.test_valuation)])
    = Raise e.
Proof.
  apply (proj2 (@all_charts_sections_must_be_mappings Sample.runtime)
           _ "ratings" PNone).
  - left. reflexivity.
  - reflexivity.
  - discriminate.
Defined.

(** The record of the self-test: the gauge shows 82, the fifth score of the
    radar chart. *)
Lemma all_charts_gauge_test_data :
  exists (charts : list (string * string)) (gauge : string),
    @generate_all_charts Sample.runtime Sample.test_data = Ok charts
    /\ @generate_investment_gauge Sample.runtime (PInt 82) = Ok gauge
    /\ assoc "investment_gauge" charts = Some gauge.
Proof.
  assert (H : exists charts,
             @generate_all_charts Sample.runtime Sample.test_data = Ok charts)
    by (vm_compute; eexists; reflexivity).
  destruct H as [charts H].
  destruct (@all_charts_gauge_shows_radar_score Sample.runtime
              Sample.test_record Sample.test_ratings charts)
    as (ns & n & gauge & Hns & Hn & _ & Hgauge & Hchart).
  - reflexivity.
  - discriminate.
  - exact H.
  - exists charts, gauge. split; [exact H|]. split; [|exact Hchart].
    destruct ns as [|n0 [|n1 [|n2 [|n3 [|n4 ns]]]]];
      simpl in Hn; try discriminate.
    injection Hn as <-.
    unfold rating_keys, Radar.rating_map in Hns. cbn [List.map fst] in Hns.
    injection Hns as _ _ _ _ H4 _.
    vm_compute in H4. subst n4. exact Hgauge.
Defined.
